(** * E-commerce demand forecasting: the analytical pipeline of the two dashboards

    A shallow embedding of [V1_sales_forecasting/V1_app.py] (daily grid,
    decomposition, outlier scoring, classification, ranking) and of
    [V2_multi_series_forecasting/V2_app.py] (batch forecasting, backtest,
    the script that Streamlit re-runs on every interaction).

    Conventions.
    - A calendar date is its day number, a [Z].
    - A float is a rational ([Q]); a float cell that may be NaN is an
      [option Q] with [None] for NaN.  Rounding is outside the model.
    - The statistical libraries (STL, IForest, Prophet) are not part of the
      repository: each is a parameter of the function that calls it.
    - A Python exception is the [Raise] outcome of a computation in the
      monad [M]; the state threaded by [M] holds the Streamlit messages
      emitted so far and the state of NumPy's global random generator.
    - Of the Streamlit elements only the four kinds of message
      ([st.error], [st.warning], [st.info], [st.success]) are recorded,
      and only when the statement that emits them is executed: titles,
      text, charts and tables are not part of the state, and neither is
      the replay of a cached function's messages on a cache hit. *)

From Stdlib Require Import ZArith QArith Qabs Lia Lqa.
From stdpp Require Import gmap strings list fin_maps sorting.

Local Open Scope string_scope.
Local Open Scope Z_scope.

(** ** Exceptions, outcomes and the computation monad *)

Inductive exn :=
| KeyError (key : string)
| ValueError (msg : string)
| TypeError (msg : string)
| LibraryError (msg : string).

(** [str(e)] *)
Definition exn_str (e : exn) : string :=
  match e with
  | KeyError k => "'" +:+ k +:+ "'"
  | ValueError m | TypeError m | LibraryError m => m
  end.

Inductive outcome (A : Type) :=
| Ret (a : A)
| Raise (e : exn).
Arguments Ret {A} a.
Arguments Raise {A} e.

Inductive st_event :=
| st_error (msg : string)
| st_warning (msg : string)
| st_info (msg : string)
| st_success (msg : string).

#[export] Instance st_event_eq_dec : EqDecision st_event.
Proof. solve_decision. Defined.

Record world := World {
  ui : list st_event;   (* messages emitted by executed code, oldest first *)
  rng : Z               (* state of the global random generator *)
}.

Definition M (S A : Type) : Type := S → outcome A * S.

Definition ret {S A} (a : A) : M S A := λ s, (Ret a, s).

Definition raise {S A} (e : exn) : M S A := λ s, (Raise e, s).

Definition bind {S A B} (m : M S A) (k : A → M S B) : M S B :=
  λ s, match m s with
       | (Ret a, s') => k a s'
       | (Raise e, s') => (Raise e, s')
       end.

(** [try: m except Exception as e: h e] *)
Definition try_except {S A} (m : M S A) (h : exn → M S A) : M S A :=
  λ s, match m s with
       | (Ret a, s') => (Ret a, s')
       | (Raise e, s') => h e s'
       end.

Notation "x <~ m ;; k" := (bind m (λ x, k))
  (at level 100, m at next level, right associativity).
Notation "m ;;; k" := (bind m (λ _, k))
  (at level 100, right associativity).

Definition emit (e : st_event) : M world unit :=
  λ w, (Ret tt, World (ui w ++ [e]) (rng w)).

(** A pure library call that may raise. *)
Definition call {S A} (r : outcome A) : M S A := λ s, (r, s).

(** A library call that may draw on the global random generator. *)
Definition call_rng {A} (f : Z → outcome A * Z) : M world A :=
  λ w, let '(r, g) := f (rng w) in (r, World (ui w) g).

(** The outcome of a computation does not depend on the state it starts
    from: neither on the messages shown before nor on the state of the
    global random generator. *)
Definition world_independent {A} (m : M world A) : Prop :=
  ∀ w1 w2, (m w1).1 = (m w2).1.

(** How many times a message has been emitted. *)
Definition occurrences (e : st_event) (w : world) : nat :=
  length (filter (λ e', e' = e) (ui w)).

Definition same_count (e : st_event) (w w' : world) : Prop :=
  occurrences e w' = occurrences e w.

(** Every run of [m] relates the state it starts from to the state it
    ends in, whether it returns or raises. *)
Definition maintains {S A} (R : S → S → Prop) (m : M S A) : Prop :=
  ∀ s, R s (m s).2.

(** ** Data frames: an index and named, typed columns *)

Inductive column :=
| Datetime (xs : list Z)
| Float64 (xs : list (option Q))
| Int64 (xs : list Z)
| Object (xs : list (option string)).

Definition col_length (c : column) : nat :=
  match c with
  | Datetime xs => length xs
  | Float64 xs => length xs
  | Int64 xs => length xs
  | Object xs => length xs
  end.

Record DataFrame := Frame {
  index : list Z;
  columns : gmap string column
}.

(** [df[name]]: KeyError when the column does not exist. *)
Definition get_col {S} (name : string) (df : DataFrame) : M S column :=
  match columns df !! name with
  | Some c => ret c
  | None => raise (KeyError name)
  end.

(** [df[name] = values] for an array of values: the lengths must agree. *)
Definition set_col {S} (name : string) (c : column) (df : DataFrame)
  : M S DataFrame :=
  if decide (col_length c = length (index df))
  then ret (Frame (index df) (<[name := c]> (columns df)))
  else raise (ValueError "Length of values does not match length of index").

(** [df[name] = scalar]: the scalar is broadcast over the index. *)
Definition broadcast_int (z : Z) (df : DataFrame) : column :=
  Int64 (replicate (length (index df)) z).

Definition broadcast_nan (df : DataFrame) : column :=
  Object (replicate (length (index df)) None).

(** [df[[n1, ..., nk]].values]: the selected columns, side by side. *)
Fixpoint select {S} (names : list string) (df : DataFrame) : M S (list column) :=
  match names with
  | [] => ret []
  | n :: names' =>
      c <~ get_col n df ;;
      cs <~ select names' df ;;
      ret (c :: cs)
  end.

(** [df.set_index(name)]: the column becomes the index.  The index of a
    frame holds dates or integers in this model. *)
Definition set_index {S} (name : string) (df : DataFrame) : M S DataFrame :=
  c <~ get_col name df ;;
  match c with
  | Datetime xs | Int64 xs => ret (Frame xs (delete name (columns df)))
  | _ => raise (TypeError "index labels are dates or integers here")
  end.

(** *** Floats and element-wise comparisons *)

Definition Qltb (x y : Q) : bool := if Qlt_le_dec x y then true else false.

(** [x > y] on floats: false as soon as one side is NaN. *)
Definition float_gt (x y : option Q) : bool :=
  match x, y with
  | Some a, Some b => Qltb b a
  | _, _ => false
  end.

Definition float_abs (x : option Q) : option Q := Qabs <$> x.

Definition float_mul (x y : option Q) : option Q :=
  match x, y with
  | Some a, Some b => Some (a * b)%Q
  | _, _ => None
  end.

(** [col == k] for an integer [k]: never raises. *)
Definition col_eq_int (c : column) (k : Z) : list bool :=
  match c with
  | Int64 xs => (λ z, bool_decide (z = k)) <$> xs
  | Float64 xs => (λ x, match x with
                        | Some q => Qeq_bool q (inject_Z k)
                        | None => false
                        end) <$> xs
  | Datetime xs => (λ _, false) <$> xs
  | Object xs => (λ _, false) <$> xs
  end.

(** [col > 0] and [col < 0]: numbers compare, NaN compares false, dates and
    strings raise. *)
Definition object_cmp_zero (xs : list (option string)) {S} : M S (list bool) :=
  if forallb (λ x, bool_decide (x = None)) xs
  then ret ((λ _, false) <$> xs)
  else raise (TypeError "'>' not supported between instances of 'str' and 'int'").

Definition col_gt_zero {S} (c : column) : M S (list bool) :=
  match c with
  | Float64 xs => ret ((λ x, float_gt x (Some 0%Q)) <$> xs)
  | Int64 xs => ret ((λ z, bool_decide (0 < z)) <$> xs)
  | Datetime _ => raise (TypeError "Invalid comparison between dtype=datetime64[ns] and int")
  | Object xs => object_cmp_zero xs
  end.

Definition col_lt_zero {S} (c : column) : M S (list bool) :=
  match c with
  | Float64 xs => ret ((λ x, float_gt (Some 0%Q) x) <$> xs)
  | Int64 xs => ret ((λ z, bool_decide (z < 0)) <$> xs)
  | Datetime _ => raise (TypeError "Invalid comparison between dtype=datetime64[ns] and int")
  | Object xs => object_cmp_zero xs
  end.

(** [a & b] on two boolean series of one frame *)
Definition mask_and (a b : list bool) : list bool := zip_with andb a b.

(** [xs[mask] = v] on the cells of an object column *)
Definition where_set (mask : list bool) (v : string) (xs : list (option string))
  : list (option string) :=
  imap (λ i x, if default false (mask !! i) then Some v else x) xs.

(** [df.loc[mask, name] = v] for a string [v].  The column is the one
    created as NaN just before; a missing column is created. *)
Definition loc_set_str {S} (mask : list bool) (name v : string) (df : DataFrame)
  : M S DataFrame :=
  match columns df !! name with
  | Some (Object xs) =>
      ret (Frame (index df) (<[name := Object (where_set mask v xs)]> (columns df)))
  | None =>
      ret (Frame (index df)
             (<[name := Object (where_set mask v (replicate (length (index df)) None))]>
                (columns df)))
  | Some _ => raise (TypeError "Invalid value for dtype")
  end.

(** *** Selecting and ordering rows *)

Definition col_take (ixs : list nat) (c : column) : column :=
  match c with
  | Datetime xs => Datetime (omap (λ i, xs !! i) ixs)
  | Float64 xs => Float64 (omap (λ i, xs !! i) ixs)
  | Int64 xs => Int64 (omap (λ i, xs !! i) ixs)
  | Object xs => Object (omap (λ i, xs !! i) ixs)
  end.

(** [df.take(ixs)]: the rows at the given positions, in that order. *)
Definition take_rows (ixs : list nat) (df : DataFrame) : DataFrame :=
  Frame (omap (λ i, index df !! i) ixs) (col_take ixs <$> columns df).

(** The positions at which a mask is true, ascending. *)
Definition nonzero (mask : list bool) : list nat :=
  filter (λ i, mask !! i = Some true) (seq 0 (length mask)).

(** [df[mask]] *)
Definition boolean_index (mask : list bool) (df : DataFrame) : DataFrame :=
  take_rows (nonzero mask) df.

(** [numpy.argsort(kind='quicksort')] on the keys of a small array, as an
    insertion sort in which an element moves left only past strictly
    greater ones.  The library promises no order among equal keys; the
    order modelled is that of this insertion sort, and the general
    statements below constrain no order among equal keys. *)
Fixpoint insert_key (x : Q * nat) (l : list (Q * nat)) : list (Q * nat) :=
  match l with
  | [] => [x]
  | y :: l' => if Qltb x.1 y.1 then x :: l else y :: insert_key x l'
  end.

(** The order the sort establishes on the keys. *)
Definition key_le (a b : Q * nat) : Prop := (a.1 <= b.1)%Q.

Definition argsort (l : list (Q * nat)) : list (Q * nat) :=
  foldl (λ acc x, insert_key x acc) [] l.

(** pandas' [nargsort(items, ascending=False, na_position='last')]: the
    non-NaN keys are reversed, sorted ascending and reversed again; the
    positions of the NaN keys come last. *)
Definition non_nan (keys : list (option Q)) : list (Q * nat) :=
  omap (λ i, k ← keys !! i; (λ q, (q, i)) <$> k) (seq 0 (length keys)).

Definition is_nan (x : option Q) : bool :=
  match x with None => true | Some _ => false end.

Definition nan_idx (keys : list (option Q)) : list nat :=
  filter (λ i, is_nan <$> keys !! i = Some true) (seq 0 (length keys)).

Definition nargsort_desc (keys : list (option Q)) : list nat :=
  (reverse (argsort (reverse (non_nan keys)))).*2 ++ nan_idx keys.

(** [df.sort_values(name, ascending=False)].  The score column holds the
    floats of [decision_scores_]; integers sort as numbers. *)
Definition sort_values_desc {S} (name : string) (df : DataFrame) : M S DataFrame :=
  c <~ get_col name df ;;
  match c with
  | Float64 xs => ret (take_rows (nargsort_desc xs) df)
  | Int64 xs | Datetime xs =>
      ret (take_rows (nargsort_desc ((λ z, Some (inject_Z z)) <$> xs)) df)
  | Object _ => raise (TypeError "'<' not supported between instances of 'str' and 'float'")
  end.



(** [col == v] for a string [v]: never raises. *)
Definition col_eq_str (c : column) (v : string) : list bool :=
  match c with
  | Object xs => (λ x, bool_decide (x = Some v)) <$> xs
  | Float64 xs => (λ _, false) <$> xs
  | Int64 xs | Datetime xs => (λ _, false) <$> xs
  end.

(** [df.drop(columns=name)] *)
Definition drop_column (name : string) (df : DataFrame) : DataFrame :=
  Frame (index df) (delete name (columns df)).

(** Two runs end in the same state, and either raise the same exception or
    return values related by [R]. *)
Definition related {S A} (R : A → A → Prop) (r1 r2 : outcome A * S) : Prop :=
  r1.2 = r2.2
  ∧ match r1.1, r2.1 with
    | Ret a, Ret b => R a b
    | Raise e1, Raise e2 => e1 = e2
    | _, _ => False
    end.

(** Two frames that differ at most in the column [stl_anomaly]. *)
Definition same_but_stl_anomaly (a b : DataFrame) : Prop :=
  drop_column "stl_anomaly" a = drop_column "stl_anomaly" b.

(** *** The rows of a frame *)

Inductive cell :=
| DatetimeCell (d : Z)
| FloatCell (x : option Q)
| IntCell (z : Z)
| ObjectCell (s : option string).

Definition col_cell (c : column) (i : nat) : option cell :=
  match c with
  | Datetime xs => DatetimeCell <$> xs !! i
  | Float64 xs => FloatCell <$> xs !! i
  | Int64 xs => IntCell <$> xs !! i
  | Object xs => ObjectCell <$> xs !! i
  end.

(** The row at position [i]: its index label and its cell in each column. *)
Definition row_at (df : DataFrame) (i : nat) : option (Z * gmap string cell) :=
  (λ label, (label, omap (λ c, col_cell c i) (columns df))) <$> index df !! i.

Definition rows (df : DataFrame) : list (Z * gmap string cell) :=
  omap (row_at df) (seq 0 (length (index df))).

(** Every column is as long as the index. *)
Definition well_formed (df : DataFrame) : Prop :=
  map_Forall (λ _ c, col_length c = length (index df)) (columns df).

(** ** V1: single-series anomaly detection *)

Module V1_app.

(** One record of the transaction log, after [pd.to_datetime]. *)
Record order := Order { order_date : Z; order_sales : Q }.

(** [df.groupby('Order Date')['Sales'].sum()]: a series indexed by date;
    each group starts from 0 and adds its rows in file order.  The
    additions are exact, where the code adds [float64]. *)
Definition groupby_sum (rows : list order) : gmap Z Q :=
  foldl (λ m r, <[order_date r := (default 0%Q (m !! order_date r) + order_sales r)%Q]> m)
        ∅ rows.

(** The values recorded on date [d], in file order, and their sum. *)
Definition sales_on (d : Z) (rows : list order) : list Q :=
  order_sales <$> filter (λ r, order_date r = d) rows.

Definition sum_on (d : Z) (rows : list order) : Q :=
  foldl Qplus 0%Q (sales_on d rows).

(** [Series.min()] and [Series.max()] of the date column; [None] is NaT. *)
Definition date_min (ds : list Z) : option Z :=
  match ds with
  | [] => None
  | d :: ds' => Some (foldl Z.min d ds')
  end.

Definition date_max (ds : list Z) : option Z :=
  match ds with
  | [] => None
  | d :: ds' => Some (foldl Z.max d ds')
  end.

(** [pd.date_range(start, end, freq='D')] *)
Definition date_range (start stop : Z) : list Z := seqZ start (stop - start + 1).

(** [.reindex(labels, fill_value=fill)] of a series *)
Definition reindex (s : gmap Z Q) (labels : list Z) (fill : Q) : list Q :=
  (λ d, default fill (s !! d)) <$> labels.

Definition range_index (n : nat) : list Z := seqZ 0 (Z.of_nat n).

Definition load_and_preprocess_data (csv : option (list order))
  : M world (option DataFrame) :=
  match csv with
  | None =>
      emit (st_error "Error: 'Sample - Superstore.csv' not found. Please make sure the file is in the same directory.") ;;;
      ret None
  | Some df =>
      let daily_sales := groupby_sum df in
      let keys := (map_to_list daily_sales).*1 in
      match date_min keys, date_max keys with
      | Some lo, Some hi =>
          let full_date_range := date_range lo hi in
          let y := reindex daily_sales full_date_range 0%Q in
          ret (Some (Frame (range_index (length full_date_range))
                           {[ "ds" := Datetime full_date_range;
                              "y" := Float64 (Some <$> y) ]}))
      | _, _ => raise (ValueError "Neither `start` nor `end` can be NaT")
      end
  end.

(** *** Anomaly detection *)

Section detect_anomalies.

(** [STL(series, period, robust).fit().resid]: the residuals, or the
    exception the decomposition raises. *)
Variable STL_fit : column → Z → bool → outcome (list (option Q)).

(** [Series.std()] *)
Variable std : list (option Q) → option Q.

(** [IForest(contamination, random_state).fit(X)]: [decision_scores_] and
    [labels_], or the exception raised by the fit.  The last argument and
    result are the state of the global random generator. *)
Variable IForest_fit :
  Q → option Z → list column → Z → outcome (list (option Q) * list Z) * Z.

(** A series object is never [None]. *)
Definition is_not_None (c : column) : bool := true.

(** Lines 36-43.  Nothing raises once the frame has been written to, so the
    handler sees the frame as it was on entry. *)
Definition decompose (data : DataFrame) : M world DataFrame :=
  try_except
    (y <~ get_col "y" data ;;
     resid <~ call (STL_fit y 7 true) ;;
     data <~ set_col "residuals" (Float64 resid) data ;;
     let threshold := float_mul (Some (3 # 1)) (std resid) in
     set_col "stl_anomaly"
       (Int64 ((λ r, if float_gt (float_abs r) threshold then 1 else 0) <$> resid))
       data)
    (λ e,
     emit (st_warning ("Warning: STL decomposition failed. " +:+ exn_str e)) ;;;
     set_col "stl_anomaly" (broadcast_int 0 data) data).

(** Lines 45-52. *)
Definition score (data : DataFrame) : M world DataFrame :=
  X <~ select ["y"] data ;;
  residuals <~ get_col "residuals" data ;;
  X <~ (if is_not_None residuals then select ["y"; "residuals"] data else ret X) ;;
  fitted <~ call_rng (IForest_fit (5 # 100) (Some 42) X) ;;
  data <~ set_col "iforest_anomaly_score" (Float64 fitted.1) data ;;
  set_col "iforest_anomaly" (Int64 fitted.2) data.

(** Lines 54-57. *)
Definition classify_rows (data : DataFrame) : M world DataFrame :=
  data <~ set_col "anomaly_type" (broadcast_nan data) data ;;
  flagged <~ get_col "iforest_anomaly" data ;;
  residuals <~ get_col "residuals" data ;;
  positive <~ col_gt_zero residuals ;;
  data <~ loc_set_str (mask_and (col_eq_int flagged 1) positive)
            "anomaly_type" "Spike" data ;;
  flagged <~ get_col "iforest_anomaly" data ;;
  residuals <~ get_col "residuals" data ;;
  negative <~ col_lt_zero residuals ;;
  loc_set_str (mask_and (col_eq_int flagged 1) negative)
    "anomaly_type" "Drop" data.

Definition detect_anomalies (data : DataFrame) : M world DataFrame :=
  data <~ set_index "ds" data ;;
  data <~ decompose data ;;
  data <~ score data ;;
  classify_rows data.

(** Lines 126-128. *)
Definition top_anomalies (daily_sales_with_anomalies : DataFrame)
  : M world DataFrame :=
  flagged <~ get_col "iforest_anomaly" daily_sales_with_anomalies ;;
  sort_values_desc "iforest_anomaly_score"
    (boolean_index (col_eq_int flagged 1) daily_sales_with_anomalies).

(** Lines 89-91: the days drawn with a marker, spikes and drops. *)
Definition anomaly_markers (daily_sales_with_anomalies : DataFrame)
  : M world (DataFrame * DataFrame) :=
  flagged <~ get_col "iforest_anomaly" daily_sales_with_anomalies ;;
  let anomalies := boolean_index (col_eq_int flagged 1) daily_sales_with_anomalies in
  kind <~ get_col "anomaly_type" anomalies ;;
  let spikes := boolean_index (col_eq_str kind "Spike") anomalies in
  kind <~ get_col "anomaly_type" anomalies ;;
  let drops := boolean_index (col_eq_str kind "Drop") anomalies in
  ret (spikes, drops).


End detect_anomalies.

(** *** The classifier and the ranking as the specification words them *)

Inductive direction := Spike | Drop.

Definition direction_name (d : direction) : string :=
  match d with Spike => "Spike" | Drop => "Drop" end.

(** Spike when the residual is present and positive, Drop when present and
    negative, unclassified otherwise; nothing for a point that is not
    anomalous. *)
Definition classify (is_anomaly : bool) (residual : option Q) : option direction :=
  if is_anomaly then
    match residual with
    | Some r => if Qltb 0 r then Some Spike
                else if Qltb r 0 then Some Drop else None
    | None => None
    end
  else None.

(** The residual of the point at position [i], when it is a number. *)
Definition residual_at (c : column) (i : nat) : option Q :=
  match c with
  | Float64 xs => mjoin (xs !! i)
  | Int64 xs => inject_Z <$> xs !! i
  | Datetime _ | Object _ => None
  end.

(** The two masks of the classifier, read at one position. *)
Definition sign_at (test : Q → bool) (c : column) (i : nat) : bool :=
  match residual_at c i with Some q => test q | None => false end.

(** A row the outlier model flagged. *)
Definition is_anomaly (r : Z * gmap string cell) : bool :=
  match r.2 !! "iforest_anomaly" with
  | Some (IntCell z) => bool_decide (z = 1)
  | _ => false
  end.

(** The direction a row carries, if any. *)
Definition direction_of (r : Z * gmap string cell) : option string :=
  match r.2 !! "anomaly_type" with
  | Some (ObjectCell s) => s
  | _ => None
  end.

(** Descending scores, NaN last. *)
Definition score_ge (a b : option Q) : Prop :=
  match a, b with
  | Some x, Some y => (y <= x)%Q
  | _, None => True
  | None, Some _ => False
  end.

(** "Sort descending by anomaly_score; ties broken by most recent date first" *)
Definition ranked_as_specified (top : DataFrame) : Prop :=
  ∃ scores,
    columns top !! "iforest_anomaly_score" = Some (Float64 scores)
    ∧ StronglySorted score_ge scores
    ∧ ∀ i j d1 d2 s1 s2,
        (i < j)%nat →
        index top !! i = Some d1 → index top !! j = Some d2 →
        scores !! i = Some (Some s1) → scores !! j = Some (Some s2) →
        (s1 == s2)%Q → d2 < d1.

End V1_app.

(** *** Stand-ins for the statistical libraries and sample data

    Used to run the pipeline on concrete inputs; every general statement
    below holds for any library. *)

Module V1_doubles.
Import V1_app.

Definition float_cells (c : column) : list (option Q) :=
  match c with
  | Float64 xs => xs
  | Int64 xs | Datetime xs => (λ z, Some (inject_Z z)) <$> xs
  | Object xs => (λ _, None) <$> xs
  end.

(** A decomposition that refuses a series shorter than two periods and
    otherwise reports the distance of each value to the first one. *)
Definition STL_fit (y : column) (period : Z) (robust : bool)
  : outcome (list (option Q)) :=
  let ys := float_cells y in
  if decide (Z.of_nat (length ys) < 2 * period)
  then Raise (ValueError "the series is shorter than two periods")
  else Ret ((λ v, match v, head ys with
                  | Some a, Some (Some b) => Some (a - b)%Q
                  | _, _ => None
                  end) <$> ys).

Definition std (xs : list (option Q)) : option Q := Some 1%Q.

(** An outlier model that scores a point by the size of its last feature,
    shifted by the seed, and flags the points further than 50 from zero.
    Without a seed it draws one from the global generator. *)
Definition scorer (seed : Z) (X : list column) : outcome (list (option Q) * list Z) :=
  match last X with
  | None => Raise (ValueError "at least one feature is required")
  | Some c =>
      let feature := float_cells c in
      Ret ((λ v : option Q, (λ q, Qabs q + inject_Z seed)%Q <$> v) <$> feature,
           (λ v, if float_gt (float_abs v) (Some (50 # 1)) then 1 else 0) <$> feature)
  end.

Definition IForest_fit (contamination : Q) (random_state : option Z)
    (X : list column) (g : Z) : outcome (list (option Q) * list Z) * Z :=
  (scorer (default g random_state) X,
   match random_state with Some _ => g | None => g + 1 end).

(** Fourteen days at 100 a day, with 10000 on day 5 and 40 on day 9. *)
Definition two_weeks : DataFrame :=
  Frame (range_index 14)
    {[ "ds" := Datetime (seqZ 1 14);
       "y" := Float64 ((λ d, Some (if decide (d = 5) then 10000 # 1
                                   else if decide (d = 9) then 40 # 1
                                   else 100 # 1)) <$> seqZ 1 14) ]}.

(** Three days: too short for the decomposition. *)
Definition three_days : DataFrame :=
  Frame (range_index 3)
    {[ "ds" := Datetime [1; 2; 3];
       "y" := Float64 [Some (7 # 1); Some 0%Q; Some (3 # 1)] ]}.

(** Four scored days; days 1 and 2 are flagged with the same score. *)
Definition four_scored : DataFrame :=
  Frame [1; 2; 3; 4]
    {[ "y" := Float64 [Some (7 # 1); Some (9 # 1); Some (8 # 1); Some (1 # 1)];
       "iforest_anomaly_score" :=
         Float64 [Some (1 # 2); Some (1 # 2); Some (1 # 10); Some (9 # 10)];
       "iforest_anomaly" := Int64 [1; 1; 0; 1] ]}.

(** The same four days once classified: day 1 a spike, day 4 a drop, day 2
    flagged without a direction. *)
Definition four_classified : DataFrame :=
  Frame [1; 2; 3; 4]
    {[ "y" := Float64 [Some (7 # 1); Some (9 # 1); Some (8 # 1); Some (1 # 1)];
       "residuals" := Float64 [Some (2 # 1); Some 0%Q; Some (1 # 1); Some (-5 # 1)];
       "iforest_anomaly_score" :=
         Float64 [Some (1 # 2); Some (1 # 2); Some (1 # 10); Some (9 # 10)];
       "iforest_anomaly" := Int64 [1; 1; 0; 1];
       "anomaly_type" := Object [Some "Spike"; None; None; Some "Drop"] ]}.

End V1_doubles.

(** ** V2: multi-series forecasting and backtesting *)

Module V2_app.

(** One row of [train.csv], after [pd.to_datetime]. *)
Record sale := Sale { date : Z; store : Z; item : Z; sales : Z }.

#[export] Instance sale_eq_dec : EqDecision sale.
Proof. solve_decision. Defined.

(** One row of a Prophet forecast, and the same row once tagged with the
    series it belongs to. *)
Record forecast_row := ForecastRow {
  ds : Z;
  yhat : option Q;
  yhat_lower : option Q;
  yhat_upper : option Q
}.

Record tagged_row := Tagged {
  row : forecast_row;
  row_store : Z;
  row_item : Z
}.

(** One row of [performance_metrics]. *)
Record metric_row := MetricRow {
  horizon : Z;
  rmse : option Q;
  mape : option Q;
  coverage : option Q
}.

(** [df[['store', 'item']].drop_duplicates()]: first occurrences, in order. *)
Fixpoint drop_duplicates (l : list (Z * Z)) : list (Z * Z) :=
  match l with
  | [] => []
  | p :: l' => p :: filter (λ q, q ≠ p) (drop_duplicates l')
  end.

Definition all_pairs (df : list sale) : list (Z * Z) :=
  drop_duplicates ((λ r, (store r, item r)) <$> df).

(** [df[(df['store'] == s) & (df['item'] == i)]] *)
Definition series (df : list sale) (p : Z * Z) : list sale :=
  filter (λ r, store r = p.1 ∧ item r = p.2) df.

Definition tag (p : Z * Z) (forecast : list forecast_row) : list tagged_row :=
  (λ r, Tagged r p.1 p.2) <$> forecast.

(** [pd.concat(frames)] *)
Definition concat {S A} (frames : list (list A)) : M S (list A) :=
  match frames with
  | [] => raise (ValueError "No objects to concatenate")
  | _ => ret (mjoin frames)
  end.

(** The first message of each of the two cached functions. *)
Definition forecast_started : st_event :=
  st_info "Please wait, loading data and training models for 500 time series. This will take a few minutes...".

Definition backtest_started : st_event :=
  st_info "Performing backtesting on a sample time series...".

Section prophet.

(** The forecasting library.  Fitting and predicting may raise and may draw
    on the global random generator (last argument and result). *)
Variable model : Type.
Variable Prophet_fit : list sale → Z → outcome model * Z.
Variable make_future_dataframe : model → Z → list Z.
Variable predict : model → list Z → Z → outcome (list forecast_row) * Z.

(** [cross_validation(m, initial, period, horizon)] and
    [performance_metrics(df_cv)] *)
Variable cv_frame : Type.
Variable cross_validation : model → Z → Z → Z → Z → outcome cv_frame * Z.
Variable performance_metrics : cv_frame → outcome (list metric_row).

(** Lines 38-47: the body of the loop, for one pair. *)
Definition forecast_series (df : list sale) (p : Z * Z) : M world (list tagged_row) :=
  let time_series := series df p in
  m <~ call_rng (Prophet_fit time_series) ;;
  let future := make_future_dataframe m 365 in
  forecast <~ call_rng (predict m future) ;;
  ret (tag p forecast).

(** [forecast] is what the loop body makes of the pair [p]: the model was
    fitted on the rows of [p], the prediction covers the 365-day extension
    and every row carries the pair. *)
Definition is_forecast_of (df : list sale) (p : Z * Z) (forecast : list tagged_row)
  : Prop :=
  ∃ g m g1 predicted g2,
    Prophet_fit (series df p) g = (Ret m, g1)
    ∧ predict m (make_future_dataframe m 365) g1 = (Ret predicted, g2)
    ∧ forecast = tag p predicted.

(** Lines 37-48: the loop, with the list it appends to. *)
Fixpoint forecast_loop (df : list sale) (pairs : list (Z * Z))
    (all_forecasts : list (list tagged_row)) : M world (list (list tagged_row)) :=
  match pairs with
  | [] => ret all_forecasts
  | p :: pairs' =>
      forecast <~ forecast_series df p ;;
      forecast_loop df pairs' (all_forecasts ++ [forecast])
  end.

Definition load_and_forecast_data (csv : option (list sale))
  : M world (option (list sale) * option (list tagged_row)) :=
  emit forecast_started ;;;
  match csv with
  | None =>
      emit (st_error "Error: 'data/train.csv' not found. Please place the file in the 'data' subfolder inside your 'V2' directory.") ;;;
      ret (None, None)
  | Some df =>
      all_forecasts <~ forecast_loop df (all_pairs df) [] ;;
      forecast_df <~ concat all_forecasts ;;
      emit (st_success "All models trained and forecasts generated!") ;;;
      ret (Some df, Some forecast_df)
  end.

Definition get_backtest_metrics (df : list sale) : M world (list metric_row) :=
  emit backtest_started ;;;
  let sample_df := series df (1, 1) in
  m <~ call_rng (Prophet_fit sample_df) ;;
  df_cv <~ call_rng (cross_validation m 1095 180 90) ;;
  df_p <~ call (performance_metrics df_cv) ;;
  emit (st_success "Backtesting complete!") ;;;
  ret df_p.

(** *** The script, as Streamlit re-runs it on every interaction *)

(** What survives from one run to the next: the log of the messages
    emitted and the random generator, the two [st.cache_data] stores and
    [st.session_state]. *)
Record session := Session {
  env : world;
  forecast_cache : option (option (list sale) * option (list tagged_row));
  backtest_cache : list (list sale * list metric_row);
  session_state : gmap string (list metric_row)
}.

(** What one run is given: the file on disk, the two select boxes and
    whether the run was caused by a click on 'Run Backtesting'. *)
Record interaction := Interaction {
  csv : option (list sale);
  selected_store : Z;
  selected_item : Z;
  clicked : bool
}.

(** What one run displays. *)
Record view := View {
  forecast_filtered : list tagged_row;
  historical_filtered : list sale;
  metrics_table : option (list metric_row)
}.

Definition lift {A} (m : M world A) : M session A :=
  λ s, let '(r, w) := m (env s) in
       (r, Session w (forecast_cache s) (backtest_cache s) (session_state s)).

Definition get_session : M session session := λ s, (Ret s, s).

Definition put_session (s : session) : M session unit := λ _, (Ret tt, s).

(** [@st.cache_data] on a function without arguments: the body runs on a
    miss only.  On a hit Streamlit draws the messages of the cached run
    again without executing anything; the log [ui] does not record that. *)
Definition cached_load_and_forecast_data (file : option (list sale))
  : M session (option (list sale) * option (list tagged_row)) :=
  s <~ get_session ;;
  match forecast_cache s with
  | Some v => ret v
  | None =>
      v <~ lift (load_and_forecast_data file) ;;
      s <~ get_session ;;
      put_session (Session (env s) (Some v) (backtest_cache s) (session_state s)) ;;;
      ret v
  end.

Fixpoint cache_lookup (df : list sale) (c : list (list sale * list metric_row))
  : option (list metric_row) :=
  match c with
  | [] => None
  | (k, v) :: c' => if decide (k = df) then Some v else cache_lookup df c'
  end.

(** [@st.cache_data] on a function of the data set, looked up by the
    content of the frame; hits as above. *)
Definition cached_get_backtest_metrics (df : list sale) : M session (list metric_row) :=
  s <~ get_session ;;
  match cache_lookup df (backtest_cache s) with
  | Some v => ret v
  | None =>
      v <~ lift (get_backtest_metrics df) ;;
      s <~ get_session ;;
      put_session (Session (env s) (forecast_cache s) ((df, v) :: backtest_cache s)
                     (session_state s)) ;;;
      ret v
  end.

(** Lines 78-194, without the drawing of the charts: what the script does
    once the data and the forecasts are at hand. *)
Definition dashboard (inp : interaction)
    (loaded : option (list sale) * option (list tagged_row))
  : M session (option view) :=
  match loaded with
  | (Some df_data, Some df_forecast) =>
      (if clicked inp then
         df_metrics <~ cached_get_backtest_metrics df_data ;;
         s <~ get_session ;;
         put_session (Session (env s) (forecast_cache s) (backtest_cache s)
                        (<["df_metrics" := df_metrics]> (session_state s)))
       else ret tt) ;;;
      let forecast_filtered :=
        filter (λ r, row_store r = selected_store inp ∧ row_item r = selected_item inp)
               df_forecast in
      let historical_filtered :=
        filter (λ r, store r = selected_store inp ∧ item r = selected_item inp)
               df_data in
      s <~ get_session ;;
      match session_state s !! "df_metrics" with
      | Some df_metrics =>
          ret (Some (View forecast_filtered historical_filtered
                          (Some (take 10 df_metrics))))
      | None =>
          lift (emit (st_info "Click the 'Run Backtesting' button in the sidebar to generate and view the performance metrics.")) ;;;
          ret (Some (View forecast_filtered historical_filtered None))
      end
  | _ => ret None
  end.

(** Lines 76-194. *)
Definition script (inp : interaction) : M session (option view) :=
  loaded <~ cached_load_and_forecast_data (csv inp) ;;
  dashboard inp loaded.

(** The session after a sequence of interactions; a run that raises shows
    the exception and leaves the session as it was at that point. *)
Definition run (s : session) (inp : interaction) : session := (script inp s).2.

Definition run_all (s : session) (inps : list interaction) : session :=
  foldl run s inps.

(** A new process: nothing shown, nothing cached, an empty session state. *)
Definition fresh (g : Z) : session := Session (World [] g) None [] ∅.

(** How many times the body of each cached function has started: each
    body begins by emitting its own [st.info]. *)
Definition backtest_runs (s : session) : nat := occurrences backtest_started (env s).

Definition forecast_runs (s : session) : nat := occurrences forecast_started (env s).

Definition same_forecast_runs (s s' : session) : Prop :=
  forecast_runs s' = forecast_runs s.

Definition same_backtest_runs (s s' : session) : Prop :=
  backtest_runs s' = backtest_runs s.

(** What a run without a click leaves alone. *)
Definition untriggered (s s' : session) : Prop :=
  backtest_runs s' = backtest_runs s
  ∧ backtest_cache s' = backtest_cache s
  ∧ session_state s' = session_state s.

(** The metrics table a run displays, if any. *)
Definition shown_metrics (r : outcome (option view)) : option (list metric_row) :=
  match r with
  | Ret (Some v) => metrics_table v
  | _ => None
  end.

End prophet.

End V2_app.

(** *** Stand-ins for the forecasting library and sample data *)

Module V2_doubles.
Import V2_app.

(** A forecaster that refuses a series of fewer than two rows, remembers
    its history, predicts the last observed level and widens its interval
    with a draw from the global generator. *)
Definition model : Type := list sale.

Definition Prophet_fit (time_series : list sale) (g : Z) : outcome model * Z :=
  if decide (length time_series < 2)%nat
  then (Raise (ValueError "Dataframe has less than 2 non-NaN rows."), g)
  else (Ret time_series, g).

Definition last_date (m : model) : Z := foldl Z.max 0 (date <$> m).

Definition make_future_dataframe (m : model) (periods : Z) : list Z :=
  (date <$> m) ++ seqZ (last_date m + 1) periods.

Definition level (m : model) : Q := inject_Z (default 0 (sales <$> last m)).

Definition predict (m : model) (future : list Z) (g : Z)
  : outcome (list forecast_row) * Z :=
  (Ret ((λ d, ForecastRow d (Some (level m))
                (Some (level m - inject_Z (1 + Z.abs g))%Q)
                (Some (level m + inject_Z (1 + Z.abs g))%Q)) <$> future),
   g + 1).

Definition first_date (m : model) : Z :=
  match date <$> m with
  | [] => 0
  | d :: ds => foldl Z.min d ds
  end.

(** The cross-validation refuses a history that does not span the initial
    window and one horizon.  Its frame is the training history; the only
    metric row reports its length as the error, and the interval draw as
    the coverage. *)
Definition cv_frame : Type := list sale * Z.

Definition cross_validation (m : model) (initial period horizon : Z) (g : Z)
  : outcome cv_frame * Z :=
  if decide (last_date m - horizon < first_date m + initial)
  then (Raise (ValueError "Less data than horizon after initial window. Make horizon or initial shorter."), g)
  else (Ret (m, g), g + 1).

Definition performance_metrics (df_cv : cv_frame) : outcome (list metric_row) :=
  Ret [MetricRow 9 (Some (inject_Z (Z.of_nat (length df_cv.1)))) None
         (Some (inject_Z df_cv.2))].

(** Two series of two days each. *)
Definition two_series : list sale :=
  [Sale 1 1 1 10; Sale 2 1 1 12; Sale 1 1 2 5; Sale 2 1 2 6].


(** One series, in store 2: there is nothing to backtest for store 1. *)
Definition other_store : list sale := [Sale 1 2 1 30; Sale 2 2 1 31].

(** The second series has a single row: its fit fails. *)
Definition lonely_series : list sale :=
  [Sale 1 1 1 10; Sale 2 1 1 12; Sale 1 1 2 5].

(** One series of 1200 consecutive days with a weekly pattern: long enough
    for an initial window of 1095 days and a horizon of 90. *)
Definition four_years : list sale :=
  (λ d, Sale d 1 1 (10 + d `mod` 7)) <$> seqZ 1 1200.

End V2_doubles.

(** * Properties *)

(** ** Generic facts about the monad *)

Lemma bind_Ret {S A B} (m : M S A) (k : A → M S B) s b s' :
  bind m k s = (Ret b, s') →
  ∃ a s1, m s = (Ret a, s1) ∧ k a s1 = (Ret b, s').
Proof.
  unfold bind. destruct (m s) as [[a|e] s1]; [eauto | discriminate].
Qed.

Lemma bind_ok {S A B} (m : M S A) (k : A → M S B) s a s' :
  m s = (Ret a, s') → bind m k s = k a s'.
Proof. intros H. unfold bind. by rewrite H. Qed.

Lemma bind_fail {S A B} (m : M S A) (k : A → M S B) s e s' :
  m s = (Raise e, s') → bind m k s = (Raise e, s').
Proof. intros H. unfold bind. by rewrite H. Qed.

Lemma ret_Ret {S A} (a b : A) (s s' : S) :
  ret a s = (Ret b, s') → b = a ∧ s' = s.
Proof. unfold ret. by intros [= -> ->]. Qed.

Lemma get_col_Ret {S} name df (s : S) c s' :
  get_col name df s = (Ret c, s') → columns df !! name = Some c ∧ s' = s.
Proof.
  unfold get_col. destruct (columns df !! name); [|discriminate].
  by intros [-> ->]%ret_Ret.
Qed.

Lemma set_col_Ret {S} name c df (s : S) d s' :
  set_col name c df s = (Ret d, s') →
  d = Frame (index df) (<[name := c]> (columns df))
  ∧ col_length c = length (index df) ∧ s' = s.
Proof.
  unfold set_col. case_decide; [|discriminate]. by intros [-> ->]%ret_Ret.
Qed.

Lemma set_col_ok {S} name c df (s : S) :
  col_length c = length (index df) →
  set_col name c df s = (Ret (Frame (index df) (<[name := c]> (columns df))), s).
Proof. intros H. unfold set_col. by rewrite decide_True. Qed.

Lemma get_col_ok {S} name df c (s : S) :
  columns df !! name = Some c → get_col name df s = (Ret c, s).
Proof. intros H. unfold get_col. by rewrite H. Qed.

(** Peel one [bind] off a computation known to return. *)
Ltac mstep H :=
  let a := fresh "a" in
  let s := fresh "s" in
  let H1 := fresh "Hstep" in
  apply bind_Ret in H as (a & s & H1 & H).

(** ** Grid Builder *)

Section grid_builder.
Import V1_app.

Lemma groupby_sum_acc (rows : list order) (m : gmap Z Q) (d : Z) :
  foldl (λ m r, <[order_date r := (default 0%Q (m !! order_date r) + order_sales r)%Q]> m)
        m rows !! d
  = match sales_on d rows with
    | [] => m !! d
    | vs => Some (foldl Qplus (default 0%Q (m !! d)) vs)
    end.
Proof.
  revert m. induction rows as [|r rows IH]; intros m; [done|].
  cbn [foldl]. rewrite IH. unfold sales_on. rewrite filter_cons.
  destruct (decide (order_date r = d)) as [->|Hne].
  - rewrite lookup_insert_eq. cbn.
    by destruct (order_sales <$> filter _ rows).
  - by rewrite lookup_insert_ne.
Qed.

Lemma groupby_sum_lookup (rows : list order) (d : Z) :
  groupby_sum rows !! d
  = if decide (d ∈ order_date <$> rows) then Some (sum_on d rows) else None.
Proof.
  unfold groupby_sum. rewrite groupby_sum_acc, lookup_empty.
  unfold sum_on, sales_on. case_decide as Hd.
  - apply list_elem_of_fmap in Hd as (r & -> & Hr).
    assert (Hin : r ∈ filter (λ r', order_date r' = order_date r) rows)
      by (by apply list_elem_of_filter).
    destruct (filter _ rows) as [|r' l']; [by apply elem_of_nil in Hin|done].
  - destruct (filter _ rows) as [|r' l'] eqn:Hf; [done|].
    exfalso. apply Hd. apply list_elem_of_fmap. exists r'. 
    assert (Hin : r' ∈ filter (λ r, order_date r = d) rows)
      by (rewrite Hf; left).
    apply list_elem_of_filter in Hin as [-> ?]. done.
Qed.

Lemma groupby_sum_keys (rows : list order) (d : Z) :
  d ∈ (map_to_list (groupby_sum rows)).*1 ↔ d ∈ order_date <$> rows.
Proof.
  rewrite list_elem_of_fmap. split.
  - intros ([d' v] & -> & Hin). apply elem_of_map_to_list in Hin.
    rewrite groupby_sum_lookup in Hin. by case_decide.
  - intros Hd. exists (d, sum_on d rows). split; [done|].
    apply elem_of_map_to_list. rewrite groupby_sum_lookup. by case_decide.
Qed.

Lemma foldl_min_spec (l : list Z) (d : Z) :
  foldl Z.min d l ∈ d :: l ∧ ∀ x, x ∈ d :: l → foldl Z.min d l ≤ x.
Proof.
  revert d. induction l as [|y l IH]; intros d; cbn.
  - split; [left|]. intros x ->%list_elem_of_singleton. lia.
  - destruct (IH (Z.min d y)) as [Hin Hle]. split.
    + apply elem_of_cons in Hin as [Heq|Hin].
      * rewrite Heq. destruct (Z.min_spec d y) as [[_ ->]|[_ ->]];
          [left | right; left].
      * by do 2 right.
    + intros x Hx. 
      assert (foldl Z.min (Z.min d y) l ≤ Z.min d y) by (apply Hle; left).
      apply elem_of_cons in Hx as [->|Hx]; [lia|].
      apply elem_of_cons in Hx as [->|Hx]; [lia|].
      apply Hle. by right.
Qed.

Lemma foldl_max_spec (l : list Z) (d : Z) :
  foldl Z.max d l ∈ d :: l ∧ ∀ x, x ∈ d :: l → x ≤ foldl Z.max d l.
Proof.
  revert d. induction l as [|y l IH]; intros d; cbn.
  - split; [left|]. intros x ->%list_elem_of_singleton. lia.
  - destruct (IH (Z.max d y)) as [Hin Hle]. split.
    + apply elem_of_cons in Hin as [Heq|Hin].
      * rewrite Heq. destruct (Z.max_spec d y) as [[_ ->]|[_ ->]];
          [right; left | left].
      * by do 2 right.
    + intros x Hx. 
      assert (Z.max d y ≤ foldl Z.max (Z.max d y) l) by (apply Hle; left).
      apply elem_of_cons in Hx as [->|Hx]; [lia|].
      apply elem_of_cons in Hx as [->|Hx]; [lia|].
      apply Hle. by right.
Qed.

Lemma date_min_unique (l : list Z) (lo : Z) :
  lo ∈ l → (∀ d, d ∈ l → lo ≤ d) → date_min l = Some lo.
Proof.
  destruct l as [|d l]; [by intros ?%elem_of_nil|]. intros Hin Hle. cbn.
  destruct (foldl_min_spec l d) as [Hin' Hle'].
  f_equal. apply Z.le_antisymm; auto.
Qed.

Lemma date_max_unique (l : list Z) (hi : Z) :
  hi ∈ l → (∀ d, d ∈ l → d ≤ hi) → date_max l = Some hi.
Proof.
  destruct l as [|d l]; [by intros ?%elem_of_nil|]. intros Hin Hle. cbn.
  destruct (foldl_max_spec l d) as [Hin' Hle'].
  f_equal. apply Z.le_antisymm; auto.
Qed.

Lemma date_range_sorted (start n : Z) : StronglySorted Z.lt (seqZ start n).
Proof.
  destruct (decide (n ≤ 0)) as [|Hn]; [rewrite seqZ_nil by done; constructor|].
  rewrite <- (Z2Nat.id n) by lia. generalize (Z.to_nat n) as k. clear.
  intros k. revert start. induction k as [|k IH]; intros start.
  - rewrite seqZ_nil by lia. constructor.
  - rewrite seqZ_cons by lia. constructor.
    + replace (Z.pred (Z.of_nat (S k))) with (Z.of_nat k) by lia. apply IH.
    + apply Forall_seqZ. lia.
Qed.

(** C1. Grid Builder correctness: for a non-empty log whose earliest and
    latest dates are [lo] and [hi], the function returns a frame whose [ds]
    column has exactly [hi - lo + 1] dates, strictly increasing and without
    duplicates; a date of the log carries the sum of the values recorded on
    it, and every other day of [[lo, hi]] carries 0. *)
Theorem grid_builder_correct (rows : list order) (w : world) (lo hi : Z) :
  rows ≠ [] →
  lo ∈ order_date <$> rows → (∀ d, d ∈ order_date <$> rows → lo ≤ d) →
  hi ∈ order_date <$> rows → (∀ d, d ∈ order_date <$> rows → d ≤ hi) →
  ∃ dates vals,
    load_and_preprocess_data (Some rows) w
    = (Ret (Some (Frame (range_index (length dates))
                        {[ "ds" := Datetime dates;
                           "y" := Float64 (Some <$> vals) ]})), w)
    ∧ length dates = Z.to_nat (hi - lo + 1)
    ∧ length vals = length dates
    ∧ StronglySorted Z.lt dates
    ∧ NoDup dates
    ∧ (∀ d, d ∈ order_date <$> rows →
         ∃ i, dates !! i = Some d ∧ vals !! i = Some (sum_on d rows))
    ∧ (∀ d, lo ≤ d ≤ hi → d ∉ order_date <$> rows →
         ∃ i, dates !! i = Some d ∧ vals !! i = Some 0%Q).
Proof.
  intros _ Hlo Hlo_le Hhi Hhi_le.
  exists (date_range lo hi), (reindex (groupby_sum rows) (date_range lo hi) 0%Q).
  assert (Hle : lo ≤ hi) by auto.
  assert (Hat : ∀ d, lo ≤ d ≤ hi →
            date_range lo hi !! Z.to_nat (d - lo) = Some d).
  { intros d Hd. unfold date_range. rewrite lookup_seqZ_lt by lia.
    f_equal. lia. }
  assert (Hval : ∀ d, lo ≤ d ≤ hi →
            reindex (groupby_sum rows) (date_range lo hi) 0%Q !! Z.to_nat (d - lo)
            = Some (default 0%Q (groupby_sum rows !! d))).
  { intros d Hd. unfold reindex. by rewrite list_lookup_fmap, Hat. }
  split; [|split; [|split; [|split; [|split; [|split]]]]].
  - unfold load_and_preprocess_data.
    rewrite (date_min_unique _ lo), (date_max_unique _ hi); [done|..].
    + by apply groupby_sum_keys.
    + intros d Hd. by apply Hhi_le, groupby_sum_keys.
    + by apply groupby_sum_keys.
    + intros d Hd. by apply Hlo_le, groupby_sum_keys.
  - unfold date_range. by rewrite length_seqZ.
  - unfold reindex. by rewrite length_fmap.
  - apply date_range_sorted.
  - apply NoDup_seqZ.
  - intros d Hd. exists (Z.to_nat (d - lo)).
    assert (lo ≤ d ≤ hi) by auto.
    rewrite Hat, Hval, groupby_sum_lookup by done.
    by rewrite decide_True.
  - intros d Hd Hnot. exists (Z.to_nat (d - lo)).
    rewrite Hat, Hval, groupby_sum_lookup by done.
    by rewrite decide_False.
Qed.

End grid_builder.

Lemma grid_builder_correct_witness :
  let rows := [V1_app.Order 3 (5 # 2); V1_app.Order 1 (7 # 1);
               V1_app.Order 3 (1 # 2)] in
  ∃ dates vals,
    V1_app.load_and_preprocess_data (Some rows) (World [] 0)
    = (Ret (Some (Frame (V1_app.range_index (length dates))
                        {[ "ds" := Datetime dates;
                           "y" := Float64 (Some <$> vals) ]})), World [] 0)
    ∧ length dates = Z.to_nat (3 - 1 + 1)
    ∧ length vals = length dates
    ∧ StronglySorted Z.lt dates
    ∧ NoDup dates
    ∧ (∀ d, d ∈ V1_app.order_date <$> rows →
         ∃ i, dates !! i = Some d ∧ vals !! i = Some (V1_app.sum_on d rows))
    ∧ (∀ d, 1 ≤ d ≤ 3 → d ∉ V1_app.order_date <$> rows →
         ∃ i, dates !! i = Some d ∧ vals !! i = Some 0%Q).
Proof.
  intros rows. apply (grid_builder_correct rows (World [] 0) 1 3).
  - discriminate.
  - subst rows. cbn. set_solver.
  - subst rows. cbn. intros d Hd. set_unfold. lia.
  - subst rows. cbn. set_solver.
  - subst rows. cbn. intros d Hd. set_unfold. lia.
Defined.

(** The grid of a three-record log over the days 1 to 3. *)
Example grid_builder_example :
  V1_app.load_and_preprocess_data
    (Some [V1_app.Order 3 (5 # 2); V1_app.Order 1 (7 # 1); V1_app.Order 3 (1 # 2)])
    (World [] 0)
  = (Ret (Some (Frame [0; 1; 2]
                  {[ "ds" := Datetime [1; 2; 3];
                     "y" := Float64 [Some ((0 + 7 # 1))%Q; Some 0%Q;
                                     Some (0 + (5 # 2) + (1 # 2))%Q] ]})),
     World [] 0).
Proof. vm_compute. reflexivity. Qed.

(** ** Anomaly Classifier *)

Section classifier.
Import V1_app.

Variable STL_fit : column → Z → bool → outcome (list (option Q)).
Variable std : list (option Q) → option Q.
Variable IForest_fit :
  Q → option Z → list column → Z → outcome (list (option Q) * list Z) * Z.

Lemma Qltb_true (x y : Q) : Qltb x y = true ↔ (x < y)%Q.
Proof.
  unfold Qltb. destruct (Qlt_le_dec x y) as [H|H]; split; try done.
  intros H'. exfalso. by apply (Qlt_not_le x y).
Qed.

Lemma Qltb_false (x y : Q) : Qltb x y = false ↔ (y <= x)%Q.
Proof.
  unfold Qltb. destruct (Qlt_le_dec x y) as [H|H]; split; try done.
  intros H'. exfalso. by apply (Qlt_not_le x y).
Qed.

Lemma Qltb_inject_pos (z : Z) : Qltb 0 (inject_Z z) = bool_decide (0 < z).
Proof.
  destruct (bool_decide (0 < z)) eqn:Hz.
  - apply bool_decide_eq_true in Hz. apply Qltb_true.
    change 0%Q with (inject_Z 0). by rewrite <- Zlt_Qlt.
  - apply bool_decide_eq_false in Hz. apply Qltb_false.
    change 0%Q with (inject_Z 0). rewrite <- Zle_Qle. lia.
Qed.

Lemma Qltb_inject_neg (z : Z) : Qltb (inject_Z z) 0 = bool_decide (z < 0).
Proof.
  destruct (bool_decide (z < 0)) eqn:Hz.
  - apply bool_decide_eq_true in Hz. apply Qltb_true.
    change 0%Q with (inject_Z 0). by rewrite <- Zlt_Qlt.
  - apply bool_decide_eq_false in Hz. apply Qltb_false.
    change 0%Q with (inject_Z 0). rewrite <- Zle_Qle. lia.
Qed.

Lemma object_cmp_zero_Ret {S} xs (s : S) mask s' :
  object_cmp_zero xs s = (Ret mask, s') → ∀ i, default false (mask !! i) = false.
Proof.
  unfold object_cmp_zero. destruct (forallb _ xs); [|discriminate].
  intros [-> _]%ret_Ret i. rewrite list_lookup_fmap. by destruct (xs !! i).
Qed.

Lemma col_gt_zero_Ret {S} c (s : S) mask s' :
  col_gt_zero c s = (Ret mask, s') →
  s' = s ∧ ∀ i, default false (mask !! i) = sign_at (Qltb 0) c i.
Proof.
  destruct c as [xs|xs|xs|xs]; cbn; [discriminate| | |].
  - intros [-> ->]%ret_Ret. split; [done|]. intros i.
    unfold sign_at. cbn. rewrite list_lookup_fmap.
    by destruct (xs !! i) as [[q|]|].
  - intros [-> ->]%ret_Ret. split; [done|]. intros i.
    unfold sign_at. cbn. rewrite list_lookup_fmap.
    destruct (xs !! i) as [z|]; cbn; [|done]. by rewrite Qltb_inject_pos.
  - intros H. split.
    + unfold object_cmp_zero in H. destruct (forallb _ xs); [|discriminate].
      by apply ret_Ret in H as [_ ->].
    + intros i. by rewrite (object_cmp_zero_Ret _ _ _ _ H).
Qed.

Lemma col_lt_zero_Ret {S} c (s : S) mask s' :
  col_lt_zero c s = (Ret mask, s') →
  s' = s ∧ ∀ i, default false (mask !! i) = sign_at (λ q, Qltb q 0) c i.
Proof.
  destruct c as [xs|xs|xs|xs]; cbn; [discriminate| | |].
  - intros [-> ->]%ret_Ret. split; [done|]. intros i.
    unfold sign_at. cbn. rewrite list_lookup_fmap.
    by destruct (xs !! i) as [[q|]|].
  - intros [-> ->]%ret_Ret. split; [done|]. intros i.
    unfold sign_at. cbn. rewrite list_lookup_fmap.
    destruct (xs !! i) as [z|]; cbn; [|done]. by rewrite Qltb_inject_neg.
  - intros H. split.
    + unfold object_cmp_zero in H. destruct (forallb _ xs); [|discriminate].
      by apply ret_Ret in H as [_ ->].
    + intros i. by rewrite (object_cmp_zero_Ret _ _ _ _ H).
Qed.

Lemma mask_and_lookup (labels : list Z) (m : list bool) (i : nat) (l : Z) :
  labels !! i = Some l →
  default false (zip_with andb ((λ z, bool_decide (z = 1)) <$> labels) m !! i)
  = bool_decide (l = 1) && default false (m !! i).
Proof.
  intros Hl. rewrite lookup_zip_with, list_lookup_fmap, Hl.
  cbn. destruct (m !! i); cbn; [done|]. by rewrite andb_false_r.
Qed.

Lemma where_set_lookup mask v xs i :
  where_set mask v xs !! i
  = (λ x, if default false (mask !! i) then Some v else x) <$> xs !! i.
Proof. unfold where_set. by rewrite list_lookup_imap. Qed.

Lemma where_set_length mask v xs : length (where_set mask v xs) = length xs.
Proof. unfold where_set. by rewrite length_imap. Qed.

Lemma classify_rows_spec (data : DataFrame) (w : world) (out : DataFrame) (w' : world)
    (labels : list Z) :
  columns data !! "iforest_anomaly" = Some (Int64 labels) →
  classify_rows data w = (Ret out, w') →
  ∃ residuals types,
    columns data !! "residuals" = Some residuals ∧
    out = Frame (index data) (<["anomaly_type" := Object types]> (columns data)) ∧
    length types = length (index data) ∧
    ∀ i l, labels !! i = Some l → (i < length (index data))%nat →
      types !! i =
        Some (if bool_decide (l = 1) && sign_at (λ q, Qltb q 0) residuals i
              then Some "Drop"
              else if bool_decide (l = 1) && sign_at (Qltb 0) residuals i
                   then Some "Spike" else None).
Proof.
  intros Hlab H. unfold classify_rows in H.
  mstep H. apply set_col_Ret in Hstep as (-> & _ & ->).
  mstep H. apply get_col_Ret in Hstep as [Hf ->]. cbn in Hf.
  rewrite lookup_insert_ne, Hlab in Hf by done. injection Hf as <-.
  mstep H. apply get_col_Ret in Hstep as [Hr ->]. cbn in Hr.
  rewrite lookup_insert_ne in Hr by done.
  mstep H. apply col_gt_zero_Ret in Hstep as [-> Hpos].
  mstep H. unfold loc_set_str in Hstep. cbn in Hstep.
  rewrite lookup_insert_eq in Hstep. apply ret_Ret in Hstep as [-> ->].
  mstep H. apply get_col_Ret in Hstep as [Hf ->]. cbn in Hf.
  rewrite !lookup_insert_ne, Hlab in Hf by done. injection Hf as <-.
  mstep H. apply get_col_Ret in Hstep as [Hr' ->]. cbn in Hr'.
  rewrite !lookup_insert_ne, Hr in Hr' by done. injection Hr' as <-.
  mstep H. apply col_lt_zero_Ret in Hstep as [-> Hneg].
  unfold loc_set_str in H. cbn in H. rewrite lookup_insert_eq in H.
  apply ret_Ret in H as [-> ->].
  eexists a, _. split; [done|]. split; [by rewrite !insert_insert_eq|].
  split; [by rewrite !where_set_length, length_replicate|].
  intros i l Hl Hi. rewrite !where_set_lookup, lookup_replicate_2 by done. cbn.
  by rewrite !mask_and_lookup with (l := l), Hpos, Hneg by done.
Qed.

Lemma score_spec (data : DataFrame) (w : world) (out : DataFrame) (w' : world) :
  score IForest_fit data w = (Ret out, w') →
  ∃ scores labels,
    out = Frame (index data)
            (<["iforest_anomaly" := Int64 labels]>
               (<["iforest_anomaly_score" := Float64 scores]> (columns data)))
    ∧ length scores = length (index data)
    ∧ length labels = length (index data)
    ∧ is_Some (columns data !! "residuals").
Proof.
  intros H. unfold score in H.
  mstep H. clear Hstep.
  mstep H. apply get_col_Ret in Hstep as [Hr ->].
  mstep H. clear Hstep.
  mstep H. clear Hstep. destruct a2 as [scores labels]. cbn in H.
  mstep H. apply set_col_Ret in Hstep as (-> & Hlen & ->).
  apply set_col_Ret in H as (-> & Hlen' & ->).
  exists scores, labels. cbn in *. eauto.
Qed.

Lemma sign_exclusive (q : Q) : Qltb 0 q = true → Qltb q 0 = false.
Proof.
  rewrite Qltb_true, Qltb_false. apply Qlt_le_weak.
Qed.

Lemma classify_cell (is_anomaly : bool) (c : column) (i : nat) :
  (if is_anomaly && sign_at (λ q, Qltb q 0) c i then Some "Drop"
   else if is_anomaly && sign_at (Qltb 0) c i then Some "Spike" else None)
  = direction_name <$> classify is_anomaly (residual_at c i).
Proof.
  unfold sign_at, classify. destruct is_anomaly; cbn; [|done].
  destruct (residual_at c i) as [q|]; [|done].
  destruct (Qltb 0 q) eqn:Hpos.
  - by rewrite (sign_exclusive q Hpos).
  - by destruct (Qltb q 0).
Qed.

Lemma classify_props (is_anomaly : bool) (r : option Q) :
  let t := direction_name <$> classify is_anomaly r in
  (is_anomaly = true → ∀ q, r = Some q →
     ((0 < q)%Q → t = Some "Spike")
     ∧ ((q < 0)%Q → t = Some "Drop")
     ∧ ((q == 0)%Q → t = None))
  ∧ (is_anomaly = true → r = None → t = None)
  ∧ (is_anomaly = false → t = None)
  ∧ (t = Some "Spike" → is_anomaly = true ∧ ∃ q, r = Some q ∧ (0 < q)%Q)
  ∧ (t = Some "Drop" → is_anomaly = true ∧ ∃ q, r = Some q ∧ (q < 0)%Q)
  ∧ (t = Some "Spike" ∨ t = Some "Drop" ∨ t = None).
Proof.
  unfold classify. destruct is_anomaly; [|cbn; split_and!; by eauto].
  destruct r as [q|]; [|cbn; split_and!; by eauto].
  destruct (Qltb 0 q) eqn:Hpos; [|destruct (Qltb q 0) eqn:Hneg]; cbn.
  - apply Qltb_true in Hpos. split_and!; try by eauto.
    intros _ q' [= <-]. split_and!; [done|intros; lra|intros; lra].
  - apply Qltb_true in Hneg. split_and!; try by eauto.
    intros _ q' [= <-]. split_and!; [intros; lra|done|intros; lra].
  - apply Qltb_false in Hpos, Hneg. split_and!; try by eauto.
    intros _ q' [= <-]. split_and!; [intros; lra|intros; lra|done].
Qed.

(** C5. Anomaly Classifier direction: in the frame the detection returns, a
    point flagged by the outlier model is a Spike when its residual is a
    positive number, a Drop when it is a negative number, and carries no
    direction when the residual is NaN or zero; a point that is not
    flagged carries no direction.  Hence a Spike has a positive residual,
    a Drop a negative one, and each point has exactly one of the three
    outcomes. *)
Theorem anomaly_classifier_direction
    (data : DataFrame) (w : world) (out : DataFrame) (w' : world) :
  detect_anomalies STL_fit std IForest_fit data w = (Ret out, w') →
  ∃ labels residuals types,
    columns out !! "iforest_anomaly" = Some (Int64 labels)
    ∧ columns out !! "residuals" = Some residuals
    ∧ columns out !! "anomaly_type" = Some (Object types)
    ∧ length labels = length (index out)
    ∧ length types = length (index out)
    ∧ ∀ i l, labels !! i = Some l →
        ∃ t, types !! i = Some t
          ∧ t = direction_name <$> classify (bool_decide (l = 1)) (residual_at residuals i)
          ∧ (l = 1 → ∀ q, residual_at residuals i = Some q →
               ((0 < q)%Q → t = Some "Spike")
               ∧ ((q < 0)%Q → t = Some "Drop")
               ∧ ((q == 0)%Q → t = None))
          ∧ (l = 1 → residual_at residuals i = None → t = None)
          ∧ (l ≠ 1 → t = None)
          ∧ (t = Some "Spike" →
               l = 1 ∧ ∃ q, residual_at residuals i = Some q ∧ (0 < q)%Q)
          ∧ (t = Some "Drop" →
               l = 1 ∧ ∃ q, residual_at residuals i = Some q ∧ (q < 0)%Q)
          ∧ (t = Some "Spike" ∨ t = Some "Drop" ∨ t = None).
Proof.
  intros H. unfold detect_anomalies in H.
  mstep H. clear Hstep. mstep H. clear Hstep.
  mstep H. apply score_spec in Hstep as (scores & labels & -> & _ & Hlen & _).
  apply classify_rows_spec with (labels := labels) in H
    as (residuals & types & Hres & -> & Hty & Hcell);
    [|by cbn; rewrite lookup_insert_eq].
  cbn in *. exists labels, residuals, types.
  split; [by rewrite lookup_insert_ne, lookup_insert_eq|].
  split; [by rewrite lookup_insert_ne|].
  split; [by rewrite lookup_insert_eq|].
  do 2 (split; [done|]).
  intros i l Hl.
  assert (Hi : (i < length (index a0))%nat)
    by (rewrite <- Hlen; by eapply lookup_lt_Some).
  rewrite (Hcell i l Hl Hi), classify_cell.
  eexists. split; [done|]. split; [done|].
  destruct (classify_props (bool_decide (l = 1)) (residual_at residuals i))
    as (P1 & P2 & P3 & P4 & P5 & P6).
  split_and!; try done.
  - intros Hl1. apply P1. by apply bool_decide_eq_true.
  - intros Hl1. apply P2. by apply bool_decide_eq_true.
  - intros Hl1. apply P3. by apply bool_decide_eq_false.
  - intros [Hb ?]%P4. by apply bool_decide_eq_true in Hb.
  - intros [Hb ?]%P5. by apply bool_decide_eq_true in Hb.
Qed.

End classifier.

(** ** Ranking of the top anomalies *)

Section ranking.
Import V1_app.

Lemma omap_lookup_in_range {A B} (f : A → option B) (l : list A) (j : nat) :
  Forall (λ x, is_Some (f x)) l → omap f l !! j = l !! j ≫= f.
Proof.
  intros H. revert j. induction H as [|x l [y Hy] _ IH]; intros j; [done|].
  csimpl. rewrite Hy. destruct j as [|j]; cbn; [done|]. apply IH.
Qed.

Lemma omap_length_in_range {A B} (f : A → option B) (l : list A) :
  Forall (λ x, is_Some (f x)) l → length (omap f l) = length l.
Proof.
  induction 1 as [|x l [y Hy] _ IH]; [done|]. csimpl. rewrite Hy. cbn. by f_equal.
Qed.

Lemma omap_length_le {A B} (f : A → option B) (l : list A) :
  (length (omap f l) ≤ length l)%nat.
Proof.
  induction l as [|x l IH]; [done|]. csimpl. destruct (f x); cbn; lia.
Qed.

Lemma omap_filter {A B} (f : A → option B) (P : A → Prop) (Q : B → Prop)
    `{∀ x, Decision (P x)} `{∀ y, Decision (Q y)} (l : list A) :
  (∀ x y, x ∈ l → f x = Some y → (P x ↔ Q y)) →
  omap f (filter P l) = filter Q (omap f l).
Proof.
  induction l as [|x l IH]; intros Hf; [done|].
  assert (IH' : omap f (filter P l) = filter Q (omap f l)).
  { apply IH. intros x' y Hx'. apply Hf. by right. }
  rewrite filter_cons. csimpl. destruct (f x) as [y|] eqn:Hy.
  - rewrite filter_cons.
    destruct (decide (P x)) as [HP|HP], (decide (Q y)) as [HQ|HQ].
    + csimpl. rewrite Hy. by f_equal.
    + exfalso. apply HQ. eapply Hf; [left|done|done].
    + exfalso. apply HP. eapply Hf; [left|done|done].
    + done.
  - destruct (decide (P x)); [|done]. csimpl. by rewrite Hy.
Qed.

Lemma lookup_in_range {A} (xs : list A) (n : nat) (ixs : list nat) :
  length xs = n → Forall (λ i, (i < n)%nat) ixs →
  Forall (λ i, is_Some (xs !! i)) ixs.
Proof.
  intros <- H. eapply Forall_impl; [done|]. intros i. apply lookup_lt_is_Some_2.
Qed.

Lemma col_cell_take (c : column) (n : nat) (ixs : list nat) (j : nat) :
  col_length c = n → Forall (λ i, (i < n)%nat) ixs →
  col_cell (col_take ixs c) j = ixs !! j ≫= col_cell c.
Proof.
  intros Hc Hixs. destruct c as [xs|xs|xs|xs]; cbn in *;
    rewrite omap_lookup_in_range by (by eapply lookup_in_range);
    by destruct (ixs !! j).
Qed.

Lemma col_take_length (c : column) (n : nat) (ixs : list nat) :
  col_length c = n → Forall (λ i, (i < n)%nat) ixs →
  col_length (col_take ixs c) = length ixs.
Proof.
  intros Hc Hixs. destruct c as [xs|xs|xs|xs]; cbn in *;
    by rewrite omap_length_in_range by (by eapply lookup_in_range).
Qed.

Lemma take_rows_index_length (df : DataFrame) (ixs : list nat) :
  Forall (λ i, (i < length (index df))%nat) ixs →
  length (index (take_rows ixs df)) = length ixs.
Proof.
  intros Hixs. cbn. by rewrite omap_length_in_range by (by eapply lookup_in_range).
Qed.

Lemma take_rows_well_formed (df : DataFrame) (ixs : list nat) :
  well_formed df → Forall (λ i, (i < length (index df))%nat) ixs →
  well_formed (take_rows ixs df).
Proof.
  intros Hwf Hixs name c Hc. rewrite take_rows_index_length by done.
  cbn in Hc. rewrite lookup_fmap in Hc.
  destruct (columns df !! name) as [c0|] eqn:Hc0; [|done].
  injection Hc as <-. eapply col_take_length; [|done]. by eapply Hwf.
Qed.

Lemma row_at_take_rows (df : DataFrame) (ixs : list nat) (j : nat) :
  well_formed df → Forall (λ i, (i < length (index df))%nat) ixs →
  row_at (take_rows ixs df) j = ixs !! j ≫= row_at df.
Proof.
  intros Hwf Hixs. unfold row_at. cbn.
  rewrite omap_lookup_in_range by (by eapply lookup_in_range).
  destruct (ixs !! j) as [i|] eqn:Hj; [|done]. cbn.
  destruct (index df !! i) as [label|]; [|done]. cbn. do 2 f_equal.
  apply map_eq. intros name. rewrite !lookup_omap, lookup_fmap.
  destruct (columns df !! name) as [c|] eqn:Hc; [|done]. cbn.
  rewrite (col_cell_take c (length (index df))), Hj; [done| |done].
  by eapply Hwf.
Qed.

Lemma row_at_is_Some (df : DataFrame) (i : nat) :
  (i < length (index df))%nat → is_Some (row_at df i).
Proof.
  intros [label Hl]%lookup_lt_is_Some_2. unfold row_at. rewrite Hl. by eexists.
Qed.

Lemma rows_take_rows (df : DataFrame) (ixs : list nat) :
  well_formed df → Forall (λ i, (i < length (index df))%nat) ixs →
  rows (take_rows ixs df) = omap (row_at df) ixs.
Proof.
  intros Hwf Hixs.
  assert (Hsome : Forall (λ i, is_Some (row_at df i)) ixs)
    by (eapply Forall_impl; [done|]; apply row_at_is_Some).
  apply list_eq. intros j. unfold rows.
  rewrite take_rows_index_length by done.
  rewrite (omap_lookup_in_range (row_at df)) by done.
  destruct (decide (j < length ixs)%nat) as [Hj|Hj].
  - rewrite omap_lookup_in_range.
    + rewrite lookup_seq_lt by done. cbn. by apply row_at_take_rows.
    + apply Forall_seq. intros i Hi. apply row_at_is_Some.
      rewrite take_rows_index_length by done. lia.
  - rewrite (lookup_ge_None_2 ixs) by lia. cbn. apply lookup_ge_None_2.
    pose proof (omap_length_le (row_at (take_rows ixs df)) (seq 0 (length ixs))) as Hle.
    rewrite length_seq in Hle. lia.
Qed.

(** *** The sort *)

Lemma insert_key_Permutation (x : Q * nat) (l : list (Q * nat)) :
  insert_key x l ≡ₚ x :: l.
Proof.
  induction l as [|y l IH]; [done|]. cbn. destruct (Qltb x.1 y.1); [done|].
  rewrite IH. apply Permutation_swap.
Qed.

Lemma argsort_acc_Permutation (l acc : list (Q * nat)) :
  foldl (λ acc x, insert_key x acc) acc l ≡ₚ l ++ acc.
Proof.
  revert acc. induction l as [|x l IH]; intros acc; [done|].
  cbn. rewrite IH, insert_key_Permutation. by rewrite Permutation_middle.
Qed.

Lemma argsort_Permutation (l : list (Q * nat)) : argsort l ≡ₚ l.
Proof. unfold argsort. by rewrite argsort_acc_Permutation, app_nil_r. Qed.

Lemma insert_key_sorted (x : Q * nat) (l : list (Q * nat)) :
  StronglySorted key_le l → StronglySorted key_le (insert_key x l).
Proof.
  induction 1 as [|y l Hl IH Hy]; cbn; [repeat constructor|].
  destruct (Qltb x.1 y.1) eqn:Hxy.
  - apply Qltb_true in Hxy. constructor; [by constructor|].
    constructor; [by apply Qlt_le_weak|].
    eapply Forall_impl; [done|]. intros z Hz. unfold key_le in *.
    eapply Qle_trans; [by apply Qlt_le_weak|done].
  - apply Qltb_false in Hxy. constructor; [done|].
    rewrite insert_key_Permutation. by constructor.
Qed.

Lemma argsort_sorted (l : list (Q * nat)) : StronglySorted key_le (argsort l).
Proof.
  unfold argsort.
  assert (H : ∀ acc, StronglySorted key_le acc →
            StronglySorted key_le (foldl (λ acc x, insert_key x acc) acc l)).
  { induction l as [|x l IH]; intros acc Hacc; [done|].
    cbn. by apply IH, insert_key_sorted. }
  apply H. constructor.
Qed.

Lemma StronglySorted_reverse {A} (R : relation A) (l : list A) :
  StronglySorted R l → StronglySorted (flip R) (reverse l).
Proof.
  induction 1 as [|x l Hl IH Hx]; [constructor|].
  rewrite reverse_cons. apply StronglySorted_app_2; [|done|repeat constructor].
  intros x1 x2 Hx1 ->%list_elem_of_singleton. rewrite elem_of_reverse in Hx1.
  rewrite Forall_forall in Hx. unfold flip. by apply Hx.
Qed.

Lemma non_nan_lookup (keys : list (option Q)) (p : Q * nat) :
  p ∈ non_nan keys → keys !! p.2 = Some (Some p.1).
Proof.
  unfold non_nan. intros (i & _ & Hi)%list_elem_of_omap.
  destruct (keys !! i) as [[q|]|] eqn:Hk; cbn in Hi; [|done..].
  by injection Hi as <-.
Qed.

Lemma non_nan_positions (keys : list (option Q)) (l : list nat) :
  Forall (λ i, (i < length keys)%nat) l →
  (omap (λ i, k ← keys !! i; (λ q, (q, i)) <$> k) l).*2
  = filter (λ i, ¬ (is_nan <$> keys !! i = Some true)) l.
Proof.
  induction 1 as [|i l Hi _ IH]; [done|].
  rewrite filter_cons. csimpl.
  apply lookup_lt_is_Some_2 in Hi as [[q|] Hk]; rewrite Hk; cbn.
  - rewrite decide_True by done. cbn. by f_equal.
  - rewrite decide_False by (by intros []). done.
Qed.

Lemma nargsort_desc_Permutation (keys : list (option Q)) :
  nargsort_desc keys ≡ₚ seq 0 (length keys).
Proof.
  unfold nargsort_desc.
  rewrite reverse_Permutation, argsort_Permutation, reverse_Permutation.
  unfold non_nan, nan_idx. rewrite non_nan_positions.
  - rewrite Permutation_app_comm. apply filter_app_complement.
  - apply Forall_seq. lia.
Qed.

Lemma omap_keys_pairs (keys : list (option Q)) (l : list (Q * nat)) :
  Forall (λ p, keys !! p.2 = Some (Some p.1)) l →
  omap (λ i, keys !! i) l.*2 = (λ p, Some p.1) <$> l.
Proof.
  induction 1 as [|p l Hp _ IH]; [done|]. csimpl. rewrite Hp. cbn. by f_equal.
Qed.

Lemma omap_keys_nan (keys : list (option Q)) (l : list nat) :
  Forall (λ i, is_nan <$> keys !! i = Some true) l →
  Forall (λ x, x = None) (omap (λ i, keys !! i) l).
Proof.
  induction 1 as [|i l Hi _ IH]; [constructor|]. csimpl.
  destruct (keys !! i) as [[q|]|]; cbn in Hi; try done. by constructor.
Qed.

Lemma all_nan_sorted (l : list (option Q)) :
  Forall (λ x, x = None) l → StronglySorted score_ge l.
Proof.
  induction 1 as [|x l -> Hl IH]; constructor; [done|].
  eapply Forall_impl; [done|]. by intros y ->.
Qed.

Lemma nargsort_desc_sorted (keys : list (option Q)) :
  StronglySorted score_ge (omap (λ i, keys !! i) (nargsort_desc keys)).
Proof.
  unfold nargsort_desc. rewrite omap_app.
  assert (Hnan : Forall (λ x, x = None) (omap (λ i, keys !! i) (nan_idx keys))).
  { apply omap_keys_nan. unfold nan_idx. apply Forall_forall.
    by intros i [? _]%list_elem_of_filter. }
  apply StronglySorted_app_2.
  - intros x1 x2 _ Hx2. rewrite Forall_forall in Hnan.
    rewrite (Hnan x2 Hx2). by destruct x1.
  - rewrite omap_keys_pairs.
    + eapply StronglySorted_fmap; [|apply StronglySorted_reverse, argsort_sorted].
      by intros x y.
    + apply Forall_forall. intros p Hp. apply non_nan_lookup.
      rewrite elem_of_reverse in Hp.
      rewrite argsort_Permutation in Hp. by rewrite elem_of_reverse in Hp.
  - by apply all_nan_sorted.
Qed.

Lemma nonzero_in_range (mask : list bool) :
  Forall (λ i, (i < length mask)%nat) (nonzero mask).
Proof.
  unfold nonzero. apply Forall_forall.
  intros i [_ Hi%elem_of_seq]%list_elem_of_filter. lia.
Qed.

Lemma columns_take_rows (ixs : list nat) (df : DataFrame) :
  columns (take_rows ixs df) = col_take ixs <$> columns df.
Proof. done. Qed.

Lemma rows_seq (df : DataFrame) :
  rows df = omap (row_at df) (seq 0 (length (index df))).
Proof. done. Qed.

Lemma rows_boolean_index (df : DataFrame) (labels : list Z) :
  well_formed df →
  columns df !! "iforest_anomaly" = Some (Int64 labels) →
  rows (boolean_index (col_eq_int (Int64 labels) 1) df)
  = filter (λ r, is_anomaly r = true) (rows df).
Proof.
  intros Hwf Hlab.
  assert (Hlen : length labels = length (index df)) by (by apply Hwf in Hlab).
  unfold boolean_index.
  assert (Hmask : length (col_eq_int (Int64 labels) 1) = length (index df))
    by (cbn; by rewrite length_fmap).
  rewrite rows_take_rows; [|done|rewrite <- Hmask; apply nonzero_in_range].
  unfold nonzero. rewrite Hmask, rows_seq. apply omap_filter.
  intros i [label cells] Hi%elem_of_seq Hrow.
  unfold row_at in Hrow. destruct (index df !! i) as [lbl|]; [|done].
  injection Hrow as <- <-. unfold is_anomaly. cbn.
  rewrite lookup_omap, Hlab. cbn. rewrite list_lookup_fmap.
  destruct (labels !! i) as [l1|] eqn:Hz; cbn.
  - split; [by intros [= ?]|by intros ->].
  - apply lookup_ge_None_1 in Hz. lia.
Qed.

(** C6, as the code has it.  The table of top anomalies holds exactly the
    rows flagged by the outlier model, ordered by descending anomaly score
    (NaN scores last); the order of rows with equal scores is left to the
    sort and is not by most recent date. *)
Theorem top_anomalies_ranking (df : DataFrame) (w : world)
    (labels : list Z) (scores : list (option Q)) :
  well_formed df →
  columns df !! "iforest_anomaly" = Some (Int64 labels) →
  columns df !! "iforest_anomaly_score" = Some (Float64 scores) →
  ∃ top ranked,
    top_anomalies df w = (Ret top, w)
    ∧ rows top ≡ₚ filter (λ r, is_anomaly r = true) (rows df)
    ∧ columns top !! "iforest_anomaly_score" = Some (Float64 ranked)
    ∧ StronglySorted score_ge ranked.
Proof.
  intros Hwf Hlab Hsc.
  set (flagged := boolean_index (col_eq_int (Int64 labels) 1) df).
  assert (Hixs : Forall (λ i, (i < length (index df))%nat)
                   (nonzero (col_eq_int (Int64 labels) 1))).
  { replace (length (index df)) with (length (col_eq_int (Int64 labels) 1)).
    - apply nonzero_in_range.
    - cbn. rewrite length_fmap. by apply Hwf in Hlab. }
  assert (Hwf' : well_formed flagged) by (by apply take_rows_well_formed).
  set (keys := omap (λ i, scores !! i) (nonzero (col_eq_int (Int64 labels) 1))).
  assert (Hkeys : columns flagged !! "iforest_anomaly_score" = Some (Float64 keys)).
  { unfold flagged, boolean_index. cbn. by rewrite lookup_fmap, Hsc. }
  assert (Hlen : length keys = length (index flagged)) by (by apply Hwf' in Hkeys).
  assert (Hperm : Forall (λ i, (i < length (index flagged))%nat) (nargsort_desc keys)).
  { rewrite nargsort_desc_Permutation, <- Hlen. apply Forall_seq. lia. }
  exists (take_rows (nargsort_desc keys) flagged),
         (omap (λ i, keys !! i) (nargsort_desc keys)).
  split_and!.
  - unfold top_anomalies, bind. rewrite (get_col_ok _ _ _ _ Hlab).
    fold flagged. unfold sort_values_desc, bind.
    by rewrite (get_col_ok _ _ _ _ Hkeys).
  - rewrite rows_take_rows by done.
    rewrite nargsort_desc_Permutation, Hlen, <- rows_seq.
    unfold flagged. by rewrite rows_boolean_index.
  - by rewrite columns_take_rows, lookup_fmap, Hkeys.
  - apply nargsort_desc_sorted.
Qed.

End ranking.

Lemma anomaly_classifier_direction_witness :
  ∃ out w',
    V1_app.detect_anomalies V1_doubles.STL_fit V1_doubles.std V1_doubles.IForest_fit
      V1_doubles.two_weeks (World [] 0) = (Ret out, w')
    ∧ ∃ labels residuals types,
        columns out !! "iforest_anomaly" = Some (Int64 labels)
        ∧ columns out !! "residuals" = Some residuals
        ∧ columns out !! "anomaly_type" = Some (Object types)
        ∧ length labels = length (index out)
        ∧ length types = length (index out)
        ∧ ∀ i l, labels !! i = Some l →
            ∃ t, types !! i = Some t
              ∧ t = V1_app.direction_name <$>
                      V1_app.classify (bool_decide (l = 1))
                        (V1_app.residual_at residuals i)
              ∧ (l = 1 → ∀ q, V1_app.residual_at residuals i = Some q →
                   ((0 < q)%Q → t = Some "Spike")
                   ∧ ((q < 0)%Q → t = Some "Drop")
                   ∧ ((q == 0)%Q → t = None))
              ∧ (l = 1 → V1_app.residual_at residuals i = None → t = None)
              ∧ (l ≠ 1 → t = None)
              ∧ (t = Some "Spike" →
                   l = 1 ∧ ∃ q, V1_app.residual_at residuals i = Some q ∧ (0 < q)%Q)
              ∧ (t = Some "Drop" →
                   l = 1 ∧ ∃ q, V1_app.residual_at residuals i = Some q ∧ (q < 0)%Q)
              ∧ (t = Some "Spike" ∨ t = Some "Drop" ∨ t = None).
Proof.
  eexists _, _. split; [vm_compute; reflexivity|].
  eapply (anomaly_classifier_direction
           V1_doubles.STL_fit V1_doubles.std V1_doubles.IForest_fit
           V1_doubles.two_weeks (World [] 0)).
  vm_compute. reflexivity.
Defined.

(** On the two sample weeks, day 5 is a Spike and day 9 is a Drop. *)
Example two_weeks_directions :
  ∃ out w',
    V1_app.detect_anomalies V1_doubles.STL_fit V1_doubles.std V1_doubles.IForest_fit
      V1_doubles.two_weeks (World [] 0) = (Ret out, w')
    ∧ index out = seqZ 1 14
    ∧ columns out !! "anomaly_type"
      = Some (Object [None; None; None; None; Some "Spike"; None; None; None;
                      Some "Drop"; None; None; None; None; None]).
Proof. eexists _, _. split; [vm_compute; reflexivity|]. by vm_compute. Qed.

Lemma top_anomalies_ranking_witness :
  ∃ top ranked,
    V1_app.top_anomalies V1_doubles.four_scored (World [] 0) = (Ret top, World [] 0)
    ∧ rows top ≡ₚ filter (λ r, V1_app.is_anomaly r = true) (rows V1_doubles.four_scored)
    ∧ columns top !! "iforest_anomaly_score" = Some (Float64 ranked)
    ∧ StronglySorted V1_app.score_ge ranked.
Proof.
  apply (top_anomalies_ranking V1_doubles.four_scored (World [] 0)
           [1; 1; 0; 1]
           [Some (1 # 2); Some (1 # 2); Some (1 # 10); Some (9 # 10)]).
  - unfold well_formed. apply (bool_decide_unpack _). vm_compute. exact I.
  - vm_compute. reflexivity.
  - vm_compute. reflexivity.
Defined.

(** C6, as the specification words it, fails on four scored days of which
    days 1 and 2 are flagged with the same score: the table lists day 4,
    then day 1, then day 2, so the tie is not broken by most recent date. *)
Lemma top_anomalies_ties_counterexample :
  ∃ top,
    V1_app.top_anomalies V1_doubles.four_scored (World [] 0) = (Ret top, World [] 0)
    ∧ index top = [4; 1; 2]
    ∧ columns top !! "iforest_anomaly_score"
      = Some (Float64 [Some (9 # 10); Some (1 # 2); Some (1 # 2)])
    ∧ ¬ V1_app.ranked_as_specified top.
Proof.
  eexists. split; [vm_compute; reflexivity|].
  split; [by vm_compute|]. split; [by vm_compute|].
  intros (scores & Hsc & _ & Hties).
  assert (Hsc' : scores = [Some (9 # 10); Some (1 # 2); Some (1 # 2)])
    by (vm_compute in Hsc; congruence).
  subst scores.
  specialize (Hties 1%nat 2%nat 1 2 (1 # 2) (1 # 2)).
  assert (2 < 1); [|lia].
  apply Hties; [lia|by vm_compute..].
Qed.

(** ** Decomposition failure *)

Section decomposition_failure.
Import V1_app.

Variable STL_fit : column → Z → bool → outcome (list (option Q)).
Variable std : list (option Q) → option Q.
Variable IForest_fit :
  Q → option Z → list column → Z → outcome (list (option Q) * list Z) * Z.

Lemma set_index_Datetime (name : string) (data : DataFrame) (xs : list Z) (w : world) :
  columns data !! name = Some (Datetime xs) →
  set_index name data w = (Ret (Frame xs (delete name (columns data))), w).
Proof.
  intros H. unfold set_index. by erewrite bind_ok; [|by apply get_col_ok].
Qed.

Lemma decompose_failure (data : DataFrame) (w : world) (y : column) (e : exn) :
  columns data !! "y" = Some y →
  STL_fit y 7 true = Raise e →
  decompose STL_fit std data w
  = (Ret (Frame (index data)
            (<["stl_anomaly" := broadcast_int 0 data]> (columns data))),
     World (ui w ++ [st_warning ("Warning: STL decomposition failed. " +:+ exn_str e)])
           (rng w)).
Proof.
  intros Hy Hstl. unfold decompose, try_except.
  erewrite bind_ok; [|by apply get_col_ok].
  erewrite bind_fail; [|unfold call; by rewrite Hstl].
  erewrite bind_ok; [|done].
  apply set_col_ok. cbn. by rewrite length_replicate.
Qed.

Lemma score_without_residuals (data : DataFrame) (w : world) (y : column) :
  columns data !! "y" = Some y →
  columns data !! "residuals" = None →
  score IForest_fit data w = (Raise (KeyError "residuals"), w).
Proof.
  intros Hy Hres. unfold score.
  erewrite bind_ok.
  2:{ cbn [select]. erewrite bind_ok; [|by apply get_col_ok].
      by erewrite bind_ok. }
  apply bind_fail. unfold get_col. by rewrite Hres.
Qed.

(** C2, on the code.  When the decomposition raises on the frame the grid
    builder produced, the warning is shown, but the fallback to the
    value-only feature vector is never reached: reading the column
    [residuals], which was not created, raises [KeyError] and the
    detection aborts. *)
Theorem decomposition_failure_aborts
    (data : DataFrame) (w : world) (dates : list Z) (y : column) (e : exn) :
  columns data !! "ds" = Some (Datetime dates) →
  columns data !! "y" = Some y →
  columns data !! "residuals" = None →
  STL_fit y 7 true = Raise e →
  detect_anomalies STL_fit std IForest_fit data w
  = (Raise (KeyError "residuals"),
     World (ui w ++ [st_warning ("Warning: STL decomposition failed. " +:+ exn_str e)])
           (rng w)).
Proof.
  intros Hds Hy Hres Hstl. unfold detect_anomalies.
  erewrite bind_ok; [|by apply set_index_Datetime].
  erewrite bind_ok; [|apply decompose_failure with (y := y); [|done]; cbn;
                      by rewrite lookup_delete_ne].
  apply bind_fail, score_without_residuals with (y := y); cbn.
  - by rewrite lookup_insert_ne, lookup_delete_ne.
  - by rewrite lookup_insert_ne, lookup_delete_ne.
Qed.

End decomposition_failure.

Lemma decomposition_failure_aborts_witness :
  V1_app.detect_anomalies V1_doubles.STL_fit V1_doubles.std V1_doubles.IForest_fit
    V1_doubles.three_days (World [] 0)
  = (Raise (KeyError "residuals"),
     World [st_warning "Warning: STL decomposition failed. the series is shorter than two periods"] 0).
Proof.
  apply (decomposition_failure_aborts
           V1_doubles.STL_fit V1_doubles.std V1_doubles.IForest_fit
           V1_doubles.three_days (World [] 0) [1; 2; 3]
           (Float64 [Some (7 # 1); Some 0%Q; Some (3 # 1)])
           (ValueError "the series is shorter than two periods")).
  - vm_compute. reflexivity.
  - vm_compute. reflexivity.
  - vm_compute. reflexivity.
  - vm_compute. reflexivity.
Defined.

(** ** What the outcome of the detection depends on *)

Create HintDb indep discriminated.

Lemma indep_ret {A} (a : A) : world_independent (ret a).
Proof. by intros w1 w2. Qed.

Lemma indep_raise {A} (e : exn) : world_independent (@raise world A e).
Proof. by intros w1 w2. Qed.

Lemma indep_call {A} (r : outcome A) : world_independent (call r).
Proof. by intros w1 w2. Qed.

Lemma indep_emit (e : st_event) : world_independent (emit e).
Proof. by intros w1 w2. Qed.

Lemma indep_bind {A B} (m : M world A) (k : A → M world B) :
  world_independent m → (∀ a, world_independent (k a)) →
  world_independent (bind m k).
Proof.
  intros Hm Hk w1 w2. specialize (Hm w1 w2). unfold bind.
  destruct (m w1) as [[a1|e1] s1], (m w2) as [[a2|e2] s2]; cbn in Hm;
    try discriminate; injection Hm as ->; [apply Hk|done].
Qed.

Lemma indep_try_except {A} (m : M world A) (h : exn → M world A) :
  world_independent m → (∀ e, world_independent (h e)) →
  world_independent (try_except m h).
Proof.
  intros Hm Hh w1 w2. specialize (Hm w1 w2). unfold try_except.
  destruct (m w1) as [[a1|e1] s1], (m w2) as [[a2|e2] s2]; cbn in Hm;
    try discriminate; injection Hm as ->; [done|apply Hh].
Qed.

Lemma indep_call_rng {A} (f : Z → outcome A * Z) :
  (∀ g1 g2, (f g1).1 = (f g2).1) → world_independent (call_rng f).
Proof.
  intros Hf w1 w2. unfold call_rng. specialize (Hf (rng w1) (rng w2)).
  by destruct (f (rng w1)), (f (rng w2)).
Qed.

Lemma indep_get_col name df : world_independent (@get_col world name df).
Proof. unfold get_col. destruct (columns df !! name); by intros w1 w2. Qed.

Lemma indep_set_col name c df : world_independent (@set_col world name c df).
Proof. unfold set_col. case_decide; by intros w1 w2. Qed.

Lemma indep_select names df : world_independent (@select world names df).
Proof.
  induction names as [|n names IH]; cbn [select]; [apply indep_ret|].
  apply indep_bind; [apply indep_get_col|]. intros c.
  apply indep_bind; [done|]. intros cs. apply indep_ret.
Qed.

Lemma indep_set_index name df : world_independent (@set_index world name df).
Proof.
  unfold set_index. apply indep_bind; [apply indep_get_col|].
  intros []; by intros w1 w2.
Qed.

Lemma indep_col_gt_zero c : world_independent (@col_gt_zero world c).
Proof.
  destruct c as [xs|xs|xs|xs]; cbn; try by intros w1 w2.
  unfold object_cmp_zero. by destruct (forallb _ xs); intros w1 w2.
Qed.

Lemma indep_col_lt_zero c : world_independent (@col_lt_zero world c).
Proof.
  destruct c as [xs|xs|xs|xs]; cbn; try by intros w1 w2.
  unfold object_cmp_zero. by destruct (forallb _ xs); intros w1 w2.
Qed.

Lemma indep_loc_set_str mask name v df :
  world_independent (@loc_set_str world mask name v df).
Proof.
  unfold loc_set_str. destruct (columns df !! name) as [[]|]; by intros w1 w2.
Qed.

#[local] Hint Resolve indep_ret indep_raise indep_call indep_emit indep_get_col
  indep_set_col indep_select indep_set_index indep_col_gt_zero indep_col_lt_zero
  indep_loc_set_str : indep.

Ltac indep_steps :=
  repeat first
    [ apply indep_bind; [|intros ?]
    | apply indep_try_except; [|intros ?]
    | solve [auto with indep] ].

Section determinism.
Import V1_app.

Variable STL_fit : column → Z → bool → outcome (list (option Q)).
Variable std : list (option Q) → option Q.
Variable IForest_fit :
  Q → option Z → list column → Z → outcome (list (option Q) * list Z) * Z.

(** The reproducibility of a seeded fit is the library's, and is assumed
    here: with a fixed [random_state] the fitted scores and labels do not
    depend on the global generator. *)
Hypothesis seeded_fit_reproducible :
  ∀ contamination seed X g1 g2,
    (IForest_fit contamination (Some seed) X g1).1
    = (IForest_fit contamination (Some seed) X g2).1.

Lemma indep_decompose data : world_independent (decompose STL_fit std data).
Proof. unfold decompose. indep_steps. Qed.

Lemma indep_score data : world_independent (score IForest_fit data).
Proof.
  unfold score. indep_steps.
  apply indep_call_rng. intros g1 g2. apply seeded_fit_reproducible.
Qed.

Lemma indep_classify_rows data : world_independent (classify_rows data).
Proof. unfold classify_rows. indep_steps. Qed.

(** The code around the fit adds no dependence on the state: if the
    seeded fit is reproducible, two runs of the detection on the same
    frame end in the same outcome, a frame or an exception, whatever was
    emitted before and whatever the state of the global random generator.
    Whether the fit is reproducible is not decided here. *)
Lemma detection_depends_on_fit_only (data : DataFrame) (w1 w2 : world) :
  (detect_anomalies STL_fit std IForest_fit data w1).1
  = (detect_anomalies STL_fit std IForest_fit data w2).1.
Proof.
  revert w1 w2. change (world_independent (detect_anomalies STL_fit std IForest_fit data)).
  unfold detect_anomalies.
  apply indep_bind; [apply indep_set_index|intros d1].
  apply indep_bind; [apply indep_decompose|intros d2].
  apply indep_bind; [apply indep_score|intros d3].
  apply indep_classify_rows.
Qed.

End determinism.

Lemma detection_depends_on_fit_only_witness :
  (V1_app.detect_anomalies V1_doubles.STL_fit V1_doubles.std V1_doubles.IForest_fit
     V1_doubles.two_weeks (World [] 0)).1
  = (V1_app.detect_anomalies V1_doubles.STL_fit V1_doubles.std V1_doubles.IForest_fit
       V1_doubles.two_weeks (World [st_info "second run"] 2024)).1.
Proof.
  apply (detection_depends_on_fit_only
           V1_doubles.STL_fit V1_doubles.std V1_doubles.IForest_fit).
  intros contamination seed X g1 g2. reflexivity.
Defined.

(** Without a seed the stand-in model draws on the global generator, and
    the scores of two runs differ. *)
Example unseeded_scores_differ :
  (V1_doubles.IForest_fit (5 # 100) None [Float64 [Some 1%Q]] 0).1
  ≠ (V1_doubles.IForest_fit (5 # 100) None [Float64 [Some 1%Q]] 1).1.
Proof. vm_compute. discriminate. Qed.

(** ** Batch Forecast Runner *)

Section batch_runner.
Import V2_app.

Variable model : Type.
Variable Prophet_fit : list sale → Z → outcome model * Z.
Variable make_future_dataframe : model → Z → list Z.
Variable predict : model → list Z → Z → outcome (list forecast_row) * Z.

#[local] Abbreviation forecast_series := (forecast_series model Prophet_fit make_future_dataframe predict).
#[local] Abbreviation forecast_loop := (forecast_loop model Prophet_fit make_future_dataframe predict).
#[local] Abbreviation load_and_forecast_data :=
  (load_and_forecast_data model Prophet_fit make_future_dataframe predict).
#[local] Abbreviation is_forecast_of := (is_forecast_of model Prophet_fit make_future_dataframe predict).

Lemma call_rng_Ret {A} (f : Z → outcome A * Z) (w : world) a w' :
  call_rng f w = (Ret a, w') →
  ∃ g', f (rng w) = (Ret a, g') ∧ w' = World (ui w) g'.
Proof.
  unfold call_rng. destruct (f (rng w)) as [r g']. intros [= -> <-]. by exists g'.
Qed.

Lemma forecast_series_fit_fails (df : list sale) (p : Z * Z) (w : world) :
  (∀ g, ∃ e g', Prophet_fit (series df p) g = (Raise e, g')) →
  ∃ e w', forecast_series df p w = (Raise e, w').
Proof.
  intros Hfail. destruct (Hfail (rng w)) as (e & g' & Hfit).
  exists e, (World (ui w) g'). unfold V2_app.forecast_series.
  apply bind_fail. unfold call_rng. by rewrite Hfit.
Qed.

Lemma forecast_series_Ret (df : list sale) (p : Z * Z) (w : world) forecast w' :
  forecast_series df p w = (Ret forecast, w') → is_forecast_of df p forecast.
Proof.
  unfold V2_app.forecast_series. intros H.
  mstep H. apply call_rng_Ret in Hstep as (g1 & Hfit & ->).
  mstep H. apply call_rng_Ret in Hstep as (g2 & Hpred & ->).
  apply ret_Ret in H as [-> _].
  by exists (rng w), a, g1, a0, g2.
Qed.

Lemma forecast_loop_fit_fails (df : list sale) (pairs : list (Z * Z)) (p : Z * Z) :
  p ∈ pairs →
  (∀ g, ∃ e g', Prophet_fit (series df p) g = (Raise e, g')) →
  ∀ acc w, ∃ e w', forecast_loop df pairs acc w = (Raise e, w').
Proof.
  intros Hin Hfail. induction pairs as [|q pairs IH]; intros acc w.
  { by apply elem_of_nil in Hin. }
  cbn [V2_app.forecast_loop].
  destruct (forecast_series df q w) as [[forecast|e] w1] eqn:Hq.
  - erewrite bind_ok by done. apply elem_of_cons in Hin as [->|Hin].
    + destruct (forecast_series_fit_fails df q w Hfail) as (e & w' & He).
      congruence.
    + by apply IH.
  - exists e, w1. by apply bind_fail.
Qed.

Lemma forecast_loop_Ret (df : list sale) (pairs : list (Z * Z)) :
  ∀ acc w res w',
    forecast_loop df pairs acc w = (Ret res, w') →
    ∃ outs, res = (acc ++ outs)%list ∧ Forall2 (is_forecast_of df) pairs outs.
Proof.
  induction pairs as [|q pairs IH]; intros acc w res w' H; cbn [V2_app.forecast_loop] in H.
  - apply ret_Ret in H as [-> _]. exists []. by rewrite app_nil_r.
  - mstep H. apply forecast_series_Ret in Hstep.
    apply IH in H as (outs & -> & Houts).
    exists (a :: outs). split; [by rewrite <- app_assoc|]. by constructor.
Qed.

(** C3, as the code has it.  The loop has no handler: when the fit of one
    series fails, whatever the state of the random generator, the runner
    raises and returns no forecast at all; when the runner returns, every
    series was fitted and the combined output is the forecasts of all the
    series, in order of first appearance. *)
Theorem batch_forecast_all_or_nothing (df : list sale) (w : world) :
  (∀ p, p ∈ all_pairs df →
     (∀ g, ∃ e g', Prophet_fit (series df p) g = (Raise e, g')) →
     ∃ e w', load_and_forecast_data (Some df) w = (Raise e, w'))
  ∧ (∀ r w', load_and_forecast_data (Some df) w = (Ret r, w') →
       ∃ outs, r = (Some df, Some (mjoin outs))
         ∧ Forall2 (is_forecast_of df) (all_pairs df) outs).
Proof.
  split.
  - intros p Hp Hfail. unfold V2_app.load_and_forecast_data.
    erewrite bind_ok by done.
    edestruct (forecast_loop_fit_fails df (all_pairs df) p Hp Hfail [])
      as (e & w' & He).
    exists e, w'. apply bind_fail. exact He.
  - intros r w' H. unfold V2_app.load_and_forecast_data in H.
    mstep H. clear Hstep. mstep H.
    apply forecast_loop_Ret in Hstep as (outs & -> & Houts).
    mstep H. unfold concat in Hstep. cbn [app] in Hstep.
    destruct outs as [|out outs]; [discriminate|].
    apply ret_Ret in Hstep as [-> ->].
    mstep H. clear Hstep. apply ret_Ret in H as [-> _].
    by exists (out :: outs).
Qed.

End batch_runner.

Lemma batch_forecast_all_or_nothing_witness :
  (∃ e w',
     V2_app.load_and_forecast_data V2_doubles.model V2_doubles.Prophet_fit
       V2_doubles.make_future_dataframe V2_doubles.predict
       (Some V2_doubles.lonely_series) (World [] 0) = (Raise e, w'))
  ∧ (∃ w' outs,
       V2_app.load_and_forecast_data V2_doubles.model V2_doubles.Prophet_fit
         V2_doubles.make_future_dataframe V2_doubles.predict
         (Some V2_doubles.two_series) (World [] 0)
       = (Ret (Some V2_doubles.two_series, Some (mjoin outs)), w')
       ∧ Forall2 (V2_app.is_forecast_of V2_doubles.model V2_doubles.Prophet_fit
                    V2_doubles.make_future_dataframe V2_doubles.predict
                    V2_doubles.two_series)
                 (V2_app.all_pairs V2_doubles.two_series) outs).
Proof.
  split.
  - destruct (batch_forecast_all_or_nothing V2_doubles.model V2_doubles.Prophet_fit
                V2_doubles.make_future_dataframe V2_doubles.predict
                V2_doubles.lonely_series (World [] 0)) as [Hfails _].
    apply (Hfails (1, 2)).
    + vm_compute. set_solver.
    + intros g. eexists _, g. vm_compute. reflexivity.
  - destruct (batch_forecast_all_or_nothing V2_doubles.model V2_doubles.Prophet_fit
                V2_doubles.make_future_dataframe V2_doubles.predict
                V2_doubles.two_series (World [] 0)) as [_ Hreturns].
    assert (Hrun : ∃ r w',
              V2_app.load_and_forecast_data V2_doubles.model V2_doubles.Prophet_fit
                V2_doubles.make_future_dataframe V2_doubles.predict
                (Some V2_doubles.two_series) (World [] 0) = (Ret r, w')).
    { eexists _, _. vm_compute. reflexivity. }
    destruct Hrun as (r & w' & Hrun).
    destruct (Hreturns r w' Hrun) as (outs & Hr & Houts).
    exists w', outs. split; [by rewrite Hrun, Hr|done].
Defined.

(** C3, as the specification words it, fails on a data set of two series
    of which the second has a single row.  The first series can be fitted,
    the second cannot, and the runner raises the exception of the second:
    there is no combined output, hence no forecast for the first series. *)
Lemma batch_isolation_counterexample :
  (∃ m g, V2_doubles.Prophet_fit
            (V2_app.series V2_doubles.lonely_series (1, 1)) 0 = (Ret m, g))
  ∧ (∀ g, V2_doubles.Prophet_fit (V2_app.series V2_doubles.lonely_series (1, 2)) g
          = (Raise (ValueError "Dataframe has less than 2 non-NaN rows."), g))
  ∧ V2_app.all_pairs V2_doubles.lonely_series = [(1, 1); (1, 2)]
  ∧ ¬ ∃ out w',
        V2_app.load_and_forecast_data V2_doubles.model V2_doubles.Prophet_fit
          V2_doubles.make_future_dataframe V2_doubles.predict
          (Some V2_doubles.lonely_series) (World [] 0) = (Ret out, w').
Proof.
  split_and!.
  - eexists _, _. vm_compute. reflexivity.
  - intros g. reflexivity.
  - vm_compute. reflexivity.
  - intros (out & w' & H). vm_compute in H. discriminate.
Qed.

(** ** The session: what runs when *)

Lemma maintains_bind {S A B} (R : S → S → Prop) `{!Transitive R}
    (m : M S A) (k : A → M S B) :
  maintains R m → (∀ a, maintains R (k a)) → maintains R (bind m k).
Proof.
  intros Hm Hk s. unfold bind. specialize (Hm s).
  destruct (m s) as [[a|e] s1]; cbn in *; [|done]. etrans; [done|apply Hk].
Qed.

Lemma maintains_ret {S A} (R : S → S → Prop) `{!Reflexive R} (a : A) :
  maintains R (ret a).
Proof. by intros s. Qed.

Lemma maintains_raise {S A} (R : S → S → Prop) `{!Reflexive R} (e : exn) :
  maintains R (@raise S A e).
Proof. by intros s. Qed.

Lemma maintains_call {S A} (R : S → S → Prop) `{!Reflexive R} (r : outcome A) :
  maintains R (call r).
Proof. by intros s. Qed.

#[local] Instance same_count_refl e : Reflexive (same_count e).
Proof. by intros w. Qed.

#[local] Instance same_count_trans e : Transitive (same_count e).
Proof. unfold same_count. intros w1 w2 w3 H1 H2. congruence. Qed.

Lemma occurrences_emit (ev e : st_event) (w : world) :
  occurrences ev (emit e w).2
  = (occurrences ev w + if decide (e = ev) then 1 else 0)%nat.
Proof.
  unfold occurrences, emit. cbn. rewrite filter_app, length_app. f_equal.
  rewrite filter_cons, filter_nil. by case_decide.
Qed.

Lemma same_count_emit (ev e : st_event) : e ≠ ev → maintains (same_count ev) (emit e).
Proof.
  intros Hne w. unfold same_count. rewrite occurrences_emit, decide_False by done. lia.
Qed.

Lemma same_count_call_rng {A} (ev : st_event) (f : Z → outcome A * Z) :
  maintains (same_count ev) (call_rng f).
Proof. intros w. unfold call_rng. by destruct (f (rng w)). Qed.

Ltac quiet_steps :=
  repeat first
    [ apply maintains_bind; [tc_solve| |intros ?]
    | apply maintains_ret; tc_solve
    | apply maintains_raise; tc_solve
    | apply maintains_call; tc_solve
    | apply same_count_call_rng
    | apply same_count_emit; discriminate ].

Section session.
Import V2_app.

Variable model : Type.
Variable Prophet_fit : list sale → Z → outcome model * Z.
Variable make_future_dataframe : model → Z → list Z.
Variable predict : model → list Z → Z → outcome (list forecast_row) * Z.
Variable cv_frame : Type.
Variable cross_validation : model → Z → Z → Z → Z → outcome cv_frame * Z.
Variable performance_metrics : cv_frame → outcome (list metric_row).

#[local] Abbreviation load_and_forecast_data :=
  (load_and_forecast_data model Prophet_fit make_future_dataframe predict).
#[local] Abbreviation get_backtest_metrics :=
  (get_backtest_metrics model Prophet_fit cv_frame cross_validation performance_metrics).
#[local] Abbreviation cached_load_and_forecast_data :=
  (cached_load_and_forecast_data model Prophet_fit make_future_dataframe predict).
#[local] Abbreviation cached_get_backtest_metrics :=
  (cached_get_backtest_metrics model Prophet_fit cv_frame cross_validation
     performance_metrics).
#[local] Abbreviation dashboard :=
  (dashboard model Prophet_fit cv_frame cross_validation performance_metrics).
#[local] Abbreviation script :=
  (script model Prophet_fit make_future_dataframe predict cv_frame cross_validation
     performance_metrics).
#[local] Abbreviation run :=
  (run model Prophet_fit make_future_dataframe predict cv_frame cross_validation
     performance_metrics).
#[local] Abbreviation run_all :=
  (run_all model Prophet_fit make_future_dataframe predict cv_frame cross_validation
     performance_metrics).

Lemma forecast_loop_quiet (ev : st_event) df pairs acc :
  maintains (same_count ev)
    (forecast_loop model Prophet_fit make_future_dataframe predict df pairs acc).
Proof.
  revert acc. induction pairs as [|p pairs IH]; intros acc; cbn [forecast_loop].
  - quiet_steps.
  - apply maintains_bind; [tc_solve| |intros ?; apply IH].
    unfold forecast_series. quiet_steps.
Qed.

Lemma load_never_backtests file :
  maintains (same_count backtest_started) (load_and_forecast_data file).
Proof.
  unfold V2_app.load_and_forecast_data.
  apply maintains_bind; [tc_solve|apply same_count_emit; discriminate|intros _].
  destruct file as [df|]; [|quiet_steps].
  apply maintains_bind; [tc_solve|apply forecast_loop_quiet|intros outs].
  apply maintains_bind; [tc_solve| |intros ?; quiet_steps].
  unfold concat. destruct outs; quiet_steps.
Qed.

Lemma backtest_never_forecasts df :
  maintains (same_count forecast_started) (get_backtest_metrics df).
Proof. unfold V2_app.get_backtest_metrics. quiet_steps. Qed.

Lemma load_counts_once file w :
  occurrences forecast_started (load_and_forecast_data file w).2
  = S (occurrences forecast_started w).
Proof.
  unfold V2_app.load_and_forecast_data, bind at 1.
  destruct (emit forecast_started w) as [[[]|e] w1] eqn:He; [|discriminate].
  assert (Hw1 : occurrences forecast_started w1 = S (occurrences forecast_started w)).
  { replace w1 with (emit forecast_started w).2 by (by rewrite He).
    rewrite occurrences_emit, decide_True by done. lia. }
  rewrite <- Hw1.
  match goal with |- occurrences _ (?m w1).2 = _ =>
    assert (Hq : maintains (same_count forecast_started) m); [|apply Hq] end.
  destruct file as [df|]; [|quiet_steps].
  apply maintains_bind; [tc_solve|apply forecast_loop_quiet|intros outs].
  apply maintains_bind; [tc_solve| |intros ?; quiet_steps].
  unfold concat. destruct outs; quiet_steps.
Qed.

Lemma backtest_counts_once df w :
  occurrences backtest_started (get_backtest_metrics df w).2
  = S (occurrences backtest_started w).
Proof.
  unfold V2_app.get_backtest_metrics, bind at 1.
  destruct (emit backtest_started w) as [[[]|e] w1] eqn:He; [|discriminate].
  assert (Hw1 : occurrences backtest_started w1 = S (occurrences backtest_started w)).
  { replace w1 with (emit backtest_started w).2 by (by rewrite He).
    rewrite occurrences_emit, decide_True by done. lia. }
  rewrite <- Hw1.
  match goal with |- occurrences _ (?m w1).2 = _ =>
    assert (Hq : maintains (same_count backtest_started) m); [|apply Hq] end.
  quiet_steps.
Qed.

#[local] Instance untriggered_refl : Reflexive untriggered.
Proof. by intros s. Qed.

#[local] Instance untriggered_trans : Transitive untriggered.
Proof.
  unfold untriggered. intros s1 s2 s3 (? & ? & ?) (? & ? & ?).
  split_and!; congruence.
Qed.

#[local] Instance same_forecast_runs_refl : Reflexive same_forecast_runs.
Proof. by intros s. Qed.

#[local] Instance same_forecast_runs_trans : Transitive same_forecast_runs.
Proof. unfold same_forecast_runs. intros s1 s2 s3 ? ?. congruence. Qed.

#[local] Instance same_backtest_runs_refl : Reflexive same_backtest_runs.
Proof. by intros s. Qed.

#[local] Instance same_backtest_runs_trans : Transitive same_backtest_runs.
Proof. unfold same_backtest_runs. intros s1 s2 s3 ? ?. congruence. Qed.

Lemma lift_state {A} (m : M world A) (s : session) :
  (lift m s).2
  = Session (m (env s)).2 (forecast_cache s) (backtest_cache s) (session_state s).
Proof. unfold lift. by destruct (m (env s)). Qed.

Lemma maintains_get_session (R : session → session → Prop) `{!Reflexive R} :
  maintains R get_session.
Proof. by intros s. Qed.

(** [s = get(); put(f s)] *)
Lemma maintains_update (R : session → session → Prop) (f : session → session) :
  (∀ s, R s (f s)) → maintains R (s <~ get_session ;; put_session (f s)).
Proof. intros Hf s. apply Hf. Qed.

(** [s = get(); put(f s); k] *)
Lemma maintains_update_then {A} (R : session → session → Prop) `{!Transitive R}
    (f : session → session) (k : M session A) :
  (∀ s, R s (f s)) → maintains R k →
  maintains R (s <~ get_session ;; put_session (f s) ;;; k).
Proof. intros Hf Hk s. cbn. etrans; [apply Hf|apply Hk]. Qed.

Lemma lift_untriggered {A} (m : M world A) :
  maintains (same_count backtest_started) m → maintains untriggered (lift m).
Proof. intros Hm s. rewrite lift_state. split_and!; [apply Hm|done..]. Qed.

Lemma lift_same_forecast_runs {A} (m : M world A) :
  maintains (same_count forecast_started) m → maintains same_forecast_runs (lift m).
Proof. intros Hm s. rewrite lift_state. apply Hm. Qed.

Lemma lift_same_backtest_runs {A} (m : M world A) :
  maintains (same_count backtest_started) m → maintains same_backtest_runs (lift m).
Proof. intros Hm s. rewrite lift_state. apply Hm. Qed.

Lemma cached_load_untriggered file :
  maintains untriggered (cached_load_and_forecast_data file).
Proof.
  unfold V2_app.cached_load_and_forecast_data.
  apply maintains_bind; [tc_solve|by apply maintains_get_session|intros s0].
  destruct (forecast_cache s0); [by apply maintains_ret|].
  apply maintains_bind;
    [tc_solve|apply lift_untriggered, load_never_backtests|intros v].
  apply (maintains_update_then untriggered
           (λ s, Session (env s) (Some v) (backtest_cache s) (session_state s)));
    [done|by apply maintains_ret].
Qed.

(** The part of the dashboard below the sidebar. *)
Lemma views_quiet (R : session → session → Prop) `{!Reflexive R, !Transitive R}
    {A} (k1 : list metric_row → M session A) (k2 : M session A) (msg : string) :
  (∀ v, maintains R (k1 v)) → maintains R k2 →
  maintains R (lift (emit (st_info msg))) →
  maintains R (s <~ get_session ;;
               match session_state s !! "df_metrics" with
               | Some df_metrics => k1 df_metrics
               | None => lift (emit (st_info msg)) ;;; k2
               end).
Proof.
  intros H1 H2 Hmsg.
  apply maintains_bind; [done|by apply maintains_get_session|intros s0].
  destruct (session_state s0 !! "df_metrics"); [apply H1|].
  by apply maintains_bind.
Qed.

Lemma dashboard_untriggered inp loaded :
  clicked inp = false → maintains untriggered (dashboard inp loaded).
Proof.
  intros Hclick. unfold V2_app.dashboard. rewrite Hclick.
  destruct loaded as [[df|] [fdf|]]; try by apply maintains_ret.
  apply maintains_bind; [tc_solve|by apply maintains_ret|intros _].
  apply (views_quiet untriggered);
    [intros v; by apply maintains_ret|by apply maintains_ret|].
  apply lift_untriggered, same_count_emit. discriminate.
Qed.

Lemma cached_backtest_same_forecast_runs df :
  maintains same_forecast_runs (cached_get_backtest_metrics df).
Proof.
  unfold V2_app.cached_get_backtest_metrics.
  apply maintains_bind; [tc_solve|by apply maintains_get_session|intros s0].
  destruct (cache_lookup df (backtest_cache s0)); [by apply maintains_ret|].
  apply maintains_bind;
    [tc_solve|apply lift_same_forecast_runs, backtest_never_forecasts|intros v].
  apply (maintains_update_then same_forecast_runs
           (λ s, Session (env s) (forecast_cache s) ((df, v) :: backtest_cache s)
                   (session_state s)));
    [done|by apply maintains_ret].
Qed.

Lemma dashboard_same_forecast_runs inp loaded :
  maintains same_forecast_runs (dashboard inp loaded).
Proof.
  unfold V2_app.dashboard.
  destruct loaded as [[df|] [fdf|]]; try by apply maintains_ret.
  apply maintains_bind; [tc_solve| |intros _].
  - destruct (clicked inp); [|by apply maintains_ret].
    apply maintains_bind; [tc_solve|apply cached_backtest_same_forecast_runs|intros v].
    by apply maintains_update.
  - apply (views_quiet same_forecast_runs);
      [intros v; by apply maintains_ret|by apply maintains_ret|].
    apply lift_same_forecast_runs, same_count_emit. discriminate.
Qed.

Lemma run_untriggered s inp : clicked inp = false → untriggered s (run s inp).
Proof.
  intros Hclick. unfold V2_app.run, V2_app.script.
  apply (maintains_bind untriggered);
    [apply cached_load_untriggered|intros loaded; by apply dashboard_untriggered].
Qed.

Lemma bind_measure {S A B} (f : S → nat) (m : M S A) (k : A → M S B) (s : S) (n : nat) :
  f (m s).2 = n → (∀ a s1, f (k a s1).2 = f s1) → f (bind m k s).2 = n.
Proof.
  intros Hm Hk. unfold bind. destruct (m s) as [[a|e] s1]; cbn in *; [|done].
  by rewrite Hk.
Qed.

Lemma cached_load_hit file s v :
  forecast_cache s = Some v → cached_load_and_forecast_data file s = (Ret v, s).
Proof.
  intros H. unfold V2_app.cached_load_and_forecast_data, bind, get_session. by rewrite H.
Qed.

Lemma cached_load_miss file s :
  forecast_cache s = None →
  forecast_runs (cached_load_and_forecast_data file s).2 = S (forecast_runs s).
Proof.
  intros H. unfold V2_app.cached_load_and_forecast_data, bind at 1, get_session.
  rewrite H. apply bind_measure.
  - rewrite lift_state. apply load_counts_once.
  - intros v s1. done.
Qed.

Lemma cached_backtest_miss df s :
  cache_lookup df (backtest_cache s) = None →
  backtest_runs (cached_get_backtest_metrics df s).2 = S (backtest_runs s).
Proof.
  intros H. unfold V2_app.cached_get_backtest_metrics, bind at 1, get_session.
  rewrite H. apply bind_measure.
  - rewrite lift_state. apply backtest_counts_once.
  - intros v s1. done.
Qed.

Lemma dashboard_click_counts inp df fdf s :
  clicked inp = true →
  cache_lookup df (backtest_cache s) = None →
  backtest_runs (dashboard inp (Some df, Some fdf) s).2 = S (backtest_runs s).
Proof.
  intros Hclick Hmiss. unfold V2_app.dashboard. rewrite Hclick.
  apply bind_measure.
  - apply bind_measure; [by apply cached_backtest_miss|]. intros v s1. done.
  - intros _ s1.
    apply (views_quiet same_backtest_runs);
      [intros v; by apply maintains_ret|by apply maintains_ret|].
    apply lift_same_backtest_runs, same_count_emit. discriminate.
Qed.

Lemma run_all_untriggered s inps :
  Forall (λ inp, clicked inp = false) inps → untriggered s (run_all s inps).
Proof.
  intros H. revert s. induction H as [|inp inps Hinp _ IH]; intros s; [done|].
  cbn. etrans; [by apply run_untriggered|apply IH].
Qed.

(** C9. On-demand backtest trigger.  A run that was not caused by the
    button neither starts the backtest nor touches its cache or the session
    state; from a new session and without a click, [df_metrics] stays
    absent and the backtest has never started; a run that changes the
    session state or starts the backtest was caused by the button, and a
    click on a loaded data set that was not backtested before does start
    it.  The batch forecast, in contrast, starts in the very first run,
    clicked or not, and never again once its result is cached. *)
Theorem backtest_on_demand :
  (∀ s inp, clicked inp = false →
     backtest_runs (run s inp) = backtest_runs s
     ∧ backtest_cache (run s inp) = backtest_cache s
     ∧ session_state (run s inp) = session_state s)
  ∧ (∀ g inps, Forall (λ inp, clicked inp = false) inps →
       session_state (run_all (fresh g) inps) !! "df_metrics" = None
       ∧ backtest_runs (run_all (fresh g) inps) = 0%nat)
  ∧ (∀ s inp, session_state (run s inp) ≠ session_state s → clicked inp = true)
  ∧ (∀ s inp, backtest_runs (run s inp) ≠ backtest_runs s → clicked inp = true)
  ∧ (∀ s inp df fdf,
       clicked inp = true →
       forecast_cache s = Some (Some df, Some fdf) →
       cache_lookup df (backtest_cache s) = None →
       backtest_runs (run s inp) = S (backtest_runs s))
  ∧ (∀ g inp, forecast_runs (run (fresh g) inp) = 1%nat)
  ∧ (∀ s inp, is_Some (forecast_cache s) →
       forecast_runs (run s inp) = forecast_runs s).
Proof.
  split_and!.
  - intros s inp Hclick. by apply run_untriggered.
  - intros g inps Hinps.
    destruct (run_all_untriggered (fresh g) inps Hinps) as (Hruns & _ & Hstate).
    by rewrite Hstate, Hruns.
  - intros s inp Hchange. destruct (clicked inp) eqn:Hclick; [done|].
    exfalso. apply Hchange. by apply run_untriggered.
  - intros s inp Hchange. destruct (clicked inp) eqn:Hclick; [done|].
    exfalso. apply Hchange. by apply run_untriggered.
  - intros s inp df fdf Hclick Hcache Hmiss. unfold V2_app.run, V2_app.script.
    erewrite bind_ok by (by apply cached_load_hit).
    by apply dashboard_click_counts.
  - intros g inp. unfold V2_app.run, V2_app.script.
    apply bind_measure; [by apply cached_load_miss|].
    intros loaded s1. apply dashboard_same_forecast_runs.
  - intros s inp [v Hv]. unfold V2_app.run, V2_app.script.
    erewrite bind_ok by (by apply cached_load_hit).
    apply dashboard_same_forecast_runs.
Qed.

End session.



(** ** Noninterference of the backtest *)

Section noninterference.
Import V2_app.

Variable model : Type.
Variable Prophet_fit : list sale → Z → outcome model * Z.
Variable make_future_dataframe : model → Z → list Z.
Variable predict : model → list Z → Z → outcome (list forecast_row) * Z.
Variable cv_frame : Type.
Variable cross_validation : model → Z → Z → Z → Z → outcome cv_frame * Z.
Variable performance_metrics : cv_frame → outcome (list metric_row).

#[local] Abbreviation get_backtest_metrics :=
  (get_backtest_metrics model Prophet_fit cv_frame cross_validation performance_metrics).
#[local] Abbreviation dashboard :=
  (dashboard model Prophet_fit cv_frame cross_validation performance_metrics).
#[local] Abbreviation script :=
  (script model Prophet_fit make_future_dataframe predict cv_frame cross_validation
     performance_metrics).
#[local] Abbreviation run :=
  (run model Prophet_fit make_future_dataframe predict cv_frame cross_validation
     performance_metrics).




End noninterference.


(** A session on the long sample series: the first run forecasts and
    shows no metrics; a click then runs the backtest once and stores its
    rows. *)
Example session_of_two_runs :
  let run := V2_app.run V2_doubles.model V2_doubles.Prophet_fit
               V2_doubles.make_future_dataframe V2_doubles.predict V2_doubles.cv_frame
               V2_doubles.cross_validation V2_doubles.performance_metrics in
  let s1 := run (V2_app.fresh 0)
              (V2_app.Interaction (Some V2_doubles.four_years) 1 1 false) in
  let s2 := run s1 (V2_app.Interaction (Some V2_doubles.four_years) 1 2 true) in
  V2_app.forecast_runs s1 = 1%nat
  ∧ V2_app.backtest_runs s1 = 0%nat
  ∧ V2_app.session_state s1 !! "df_metrics" = None
  ∧ V2_app.forecast_runs s2 = 1%nat
  ∧ V2_app.backtest_runs s2 = 1%nat
  ∧ V2_app.session_state s2 !! "df_metrics"
    = Some [V2_app.MetricRow 9 (Some (1200 # 1)) None (Some (1 # 1))].
Proof. vm_compute. repeat split. Qed.

(** ** Backtest Evaluator: what the code fixes *)

Section backtest_evaluator.
Import V2_app.

Variable model : Type.
Variable Prophet_fit : list sale → Z → outcome model * Z.
Variable cv_frame : Type.
Variable cross_validation : model → Z → Z → Z → Z → outcome cv_frame * Z.
Variable performance_metrics : cv_frame → outcome (list metric_row).

(** The rows the backtest returns are the ones the library computes from a
    cross-validation of the model fitted on store 1, item 1, with an
    initial window of 1095 days, a period of 180 days and a horizon of 90
    days.  The folds and the horizons of the rows are the library's. *)
Lemma get_backtest_metrics_Ret (df : list sale) (w : world) df_p w' :
  get_backtest_metrics model Prophet_fit cv_frame cross_validation performance_metrics
    df w = (Ret df_p, w') →
  ∃ g m g1 df_cv g2,
    Prophet_fit (series df (1, 1)) g = (Ret m, g1)
    ∧ cross_validation m 1095 180 90 g1 = (Ret df_cv, g2)
    ∧ performance_metrics df_cv = Ret df_p.
Proof.
  unfold get_backtest_metrics. intros H.
  mstep H. apply ret_Ret in Hstep as [_ ->].
  mstep H. apply call_rng_Ret in Hstep as (g1 & Hfit & ->).
  mstep H. apply call_rng_Ret in Hstep as (g2 & Hcv & ->).
  mstep H. unfold call in Hstep. injection Hstep as Hpm <-.
  mstep H. apply ret_Ret in H as [-> _].
  cbn in *. by exists (rng w), a0, g1, a1, g2.
Qed.

End backtest_evaluator.

(** * Further properties of the code *)

(** ** What the grid builder does with each kind of input *)

Lemma groupby_sum_nonempty (r : V1_app.order) (rows : list V1_app.order) :
  (map_to_list (V1_app.groupby_sum (r :: rows))).*1 ≠ [].
Proof.
  intros Hnil.
  assert (Hr : V1_app.order_date r ∈ (map_to_list (V1_app.groupby_sum (r :: rows))).*1)
    by (apply groupby_sum_keys; cbn; left).
  rewrite Hnil in Hr. by apply elem_of_nil in Hr.
Qed.

(** A missing file gives [None] after one error message; an empty log
    raises; any other log gives a frame and shows nothing. *)
Theorem grid_builder_outcomes (csv : option (list V1_app.order)) (w : world) :
  match csv with
  | None =>
      V1_app.load_and_preprocess_data csv w
      = (Ret None,
         World (ui w ++ [st_error "Error: 'Sample - Superstore.csv' not found. Please make sure the file is in the same directory."])
               (rng w))
  | Some [] =>
      V1_app.load_and_preprocess_data csv w
      = (Raise (ValueError "Neither `start` nor `end` can be NaT"), w)
  | Some (_ :: _) =>
      ∃ df, V1_app.load_and_preprocess_data csv w = (Ret (Some df), w)
  end.
Proof.
  destruct csv as [[|r rows]|]; [done| |done].
  pose proof (groupby_sum_nonempty r rows) as Hne.
  unfold V1_app.load_and_preprocess_data.
  destruct ((map_to_list (V1_app.groupby_sum (r :: rows))).*1) as [|k keys]; [done|].
  cbn [V1_app.date_min V1_app.date_max]. eauto.
Qed.

(** ** Anomaly detection: when it returns and what it fits *)

Section detection_returns.
Import V1_app.

Variable STL_fit : column → Z → bool → outcome (list (option Q)).
Variable std : list (option Q) → option Q.
Variable IForest_fit :
  Q → option Z → list column → Z → outcome (list (option Q) * list Z) * Z.

Lemma call_rng_ok {A} (f : Z → outcome A * Z) (w : world) r g' :
  f (rng w) = (r, g') → call_rng f w = (r, World (ui w) g').
Proof. intros H. unfold call_rng. by rewrite H. Qed.

Lemma decompose_success (data : DataFrame) (w : world) (y : column)
    (resid : list (option Q)) :
  columns data !! "y" = Some y →
  STL_fit y 7 true = Ret resid →
  length resid = length (index data) →
  ∃ stl,
    length stl = length (index data)
    ∧ decompose STL_fit std data w
      = (Ret (Frame (index data)
                (<["stl_anomaly" := Int64 stl]>
                   (<["residuals" := Float64 resid]> (columns data)))), w).
Proof.
  intros Hy Hstl Hlen. eexists. split; last first.
  - unfold decompose, try_except.
    erewrite bind_ok; [|by apply get_col_ok].
    erewrite bind_ok; [|unfold call; by rewrite Hstl].
    erewrite bind_ok; [|by apply set_col_ok].
    rewrite set_col_ok; [done|]. cbn. by rewrite length_fmap.
  - by rewrite length_fmap.
Qed.

Lemma select_two (data : DataFrame) (w : world) (n1 n2 : string) (c1 c2 : column) :
  columns data !! n1 = Some c1 → columns data !! n2 = Some c2 →
  select [n1; n2] data w = (Ret [c1; c2], w).
Proof.
  intros H1 H2. cbn [select].
  erewrite bind_ok; [|by apply get_col_ok].
  erewrite bind_ok; [done|].
  erewrite bind_ok; [|by apply get_col_ok]. done.
Qed.

Lemma score_success (data : DataFrame) (w : world) (y r : column)
    (scores : list (option Q)) (labels : list Z) (g' : Z) :
  columns data !! "y" = Some y →
  columns data !! "residuals" = Some r →
  IForest_fit (5 # 100) (Some 42) [y; r] (rng w) = (Ret (scores, labels), g') →
  length scores = length (index data) →
  length labels = length (index data) →
  score IForest_fit data w
  = (Ret (Frame (index data)
            (<["iforest_anomaly" := Int64 labels]>
               (<["iforest_anomaly_score" := Float64 scores]> (columns data)))),
     World (ui w) g').
Proof.
  intros Hy Hr Hfit Hs Hl. unfold score.
  erewrite bind_ok.
  2:{ cbn [select]. erewrite bind_ok; [|by apply get_col_ok]. by erewrite bind_ok. }
  erewrite bind_ok; [|by apply get_col_ok].
  erewrite bind_ok; [|unfold is_not_None; by apply select_two].
  erewrite bind_ok; [|by apply call_rng_ok].
  cbn [fst snd]. erewrite bind_ok; [|by apply set_col_ok].
  by rewrite set_col_ok.
Qed.

Lemma classify_rows_success (data : DataFrame) (w : world)
    (labels : list Z) (resid : list (option Q)) :
  columns data !! "iforest_anomaly" = Some (Int64 labels) →
  columns data !! "residuals" = Some (Float64 resid) →
  ∃ types,
    length types = length (index data)
    ∧ classify_rows data w
      = (Ret (Frame (index data) (<["anomaly_type" := Object types]> (columns data))), w).
Proof.
  intros Hl Hr. eexists. split; last first.
  - unfold classify_rows.
    erewrite bind_ok; [|apply set_col_ok; cbn; by rewrite length_replicate].
    erewrite bind_ok; [|apply get_col_ok; cbn; by rewrite lookup_insert_ne].
    erewrite bind_ok; [|apply get_col_ok; cbn; by rewrite lookup_insert_ne].
    erewrite bind_ok; [|done].
    erewrite bind_ok; [|unfold loc_set_str; cbn; by rewrite lookup_insert_eq].
    erewrite bind_ok; [|apply get_col_ok; cbn; by rewrite !lookup_insert_ne].
    erewrite bind_ok; [|apply get_col_ok; cbn; by rewrite !lookup_insert_ne].
    erewrite bind_ok; [|done].
    unfold loc_set_str. cbn. rewrite lookup_insert_eq, !insert_insert_eq. done.
  - by rewrite !where_set_length, length_replicate.
Qed.

(** When the decomposition and the outlier model return one value per day,
    the detection returns: the dates become the index, the columns of the
    input other than [ds] are kept as they are, five columns are added,
    nothing is shown and a well-formed frame stays well formed. *)
Theorem detect_anomalies_returns (data : DataFrame) (w : world)
    (dates : list Z) (y : column) (resid scores : list (option Q))
    (labels : list Z) (g' : Z) :
  columns data !! "ds" = Some (Datetime dates) →
  columns data !! "y" = Some y →
  STL_fit y 7 true = Ret resid →
  length resid = length dates →
  IForest_fit (5 # 100) (Some 42) [y; Float64 resid] (rng w) = (Ret (scores, labels), g') →
  length scores = length dates →
  length labels = length dates →
  ∃ stl types,
    detect_anomalies STL_fit std IForest_fit data w
    = (Ret (Frame dates
              (<["anomaly_type" := Object types]>
                 (<["iforest_anomaly" := Int64 labels]>
                    (<["iforest_anomaly_score" := Float64 scores]>
                       (<["stl_anomaly" := Int64 stl]>
                          (<["residuals" := Float64 resid]>
                             (delete "ds" (columns data)))))))),
       World (ui w) g')
    ∧ length stl = length dates
    ∧ length types = length dates
    ∧ (well_formed data →
       well_formed
         (Frame dates
            (<["anomaly_type" := Object types]>
               (<["iforest_anomaly" := Int64 labels]>
                  (<["iforest_anomaly_score" := Float64 scores]>
                     (<["stl_anomaly" := Int64 stl]>
                        (<["residuals" := Float64 resid]>
                           (delete "ds" (columns data))))))))).
Proof.
  intros Hds Hy Hstl Hres Hfit Hsc Hlab.
  set (d1 := Frame dates (delete "ds" (columns data))).
  destruct (decompose_success d1 w y resid) as (stl & Hstl_len & Hdec);
    [cbn; by rewrite lookup_delete_ne|done|done|].
  set (d2 := Frame dates (<["stl_anomaly" := Int64 stl]>
                            (<["residuals" := Float64 resid]> (delete "ds" (columns data))))).
  set (d3 := Frame dates (<["iforest_anomaly" := Int64 labels]>
                            (<["iforest_anomaly_score" := Float64 scores]> (columns d2)))).
  destruct (classify_rows_success d3 (World (ui w) g') labels resid)
    as (types & Hty_len & Hcls).
  { cbn. by rewrite lookup_insert_eq. }
  { cbn. rewrite !lookup_insert_ne by done. by rewrite lookup_insert_eq. }
  exists stl, types. split_and!; [|done|done|].
  - unfold detect_anomalies.
    erewrite bind_ok; [|by apply set_index_Datetime].
    erewrite bind_ok; [|exact Hdec].
    erewrite bind_ok; [exact Hcls|].
    apply (score_success d2 w y (Float64 resid)); try done.
    + cbn. rewrite !lookup_insert_ne by done. by rewrite lookup_delete_ne.
    + cbn. rewrite lookup_insert_ne by done. by rewrite lookup_insert_eq.
  - intros Hwf. unfold well_formed in *. cbn in *.
    assert (Hdates : length dates = length (index data)) by (by apply Hwf in Hds).
    repeat (apply map_Forall_insert_2; [cbn; congruence|]).
    intros name c [_ Hc]%lookup_delete_Some. rewrite Hdates. by eapply Hwf.
Qed.

Lemma select_state {S} (names : list string) (data : DataFrame) (s : S) :
  (select names data s).2 = s.
Proof.
  induction names as [|n names IH]; [done|]. cbn [select]. unfold bind, get_col.
  destruct (columns data !! n); [|done]. cbn.
  destruct (select names data s) as [[cs|e] s1]; cbn in *; by subst.
Qed.

Lemma select_Ret_two {S} (data : DataFrame) (s : S) (n1 n2 : string) cs s' :
  select [n1; n2] data s = (Ret cs, s') →
  ∃ c1 c2, columns data !! n1 = Some c1 ∧ columns data !! n2 = Some c2
           ∧ cs = [c1; c2] ∧ s' = s.
Proof.
  cbn [select]. intros H.
  apply bind_Ret in H as (c1 & s1 & [H1 ->]%get_col_Ret & H).
  apply bind_Ret in H as (cs2 & s2 & H2 & [-> ->]%ret_Ret).
  apply bind_Ret in H2 as (c2 & s3 & [H2 ->]%get_col_Ret & H3).
  apply bind_Ret in H3 as (cs3 & s4 & [-> ->]%ret_Ret & [-> ->]%ret_Ret).
  by exists c1, c2.
Qed.

Lemma score_fitted (data : DataFrame) (w : world) (out : DataFrame) (w' : world) :
  score IForest_fit data w = (Ret out, w') →
  ∃ y r scores labels,
    columns data !! "y" = Some y
    ∧ columns data !! "residuals" = Some r
    ∧ IForest_fit (5 # 100) (Some 42) [y; r] (rng w) = (Ret (scores, labels), rng w')
    ∧ out = Frame (index data)
              (<["iforest_anomaly" := Int64 labels]>
                 (<["iforest_anomaly_score" := Float64 scores]> (columns data)))
    ∧ ui w' = ui w.
Proof.
  unfold score. intros H.
  apply bind_Ret in H as (X0 & s0 & HX0 & H).
  assert (s0 = w) as -> by (by rewrite <- (select_state ["y"] data w), HX0).
  apply bind_Ret in H as (r0 & s1 & [_ ->]%get_col_Ret & H).
  apply bind_Ret in H as (X & s2 & HX & H).
  unfold is_not_None in HX.
  apply select_Ret_two in HX as (y & r & Hy & Hr & -> & ->).
  apply bind_Ret in H as ([scores labels] & s3 & Hfit & H).
  apply call_rng_Ret in Hfit as (g' & Hfit & ->).
  cbn [fst snd] in H.
  apply bind_Ret in H as (d & s4 & (-> & _ & ->)%set_col_Ret & H).
  apply set_col_Ret in H as (-> & _ & ->).
  by exists y, r, scores, labels.
Qed.

Lemma classify_rows_state (data : DataFrame) (w : world) :
  (classify_rows data w).2 = w.
Proof.
  symmetry. revert w. change (maintains eq (classify_rows data)).
  assert (Hget : ∀ n d, maintains eq (@get_col world n d)).
  { intros n d w. unfold get_col. by destruct (columns d !! n). }
  assert (Hset : ∀ n c d, maintains eq (@set_col world n c d)).
  { intros n c d w. unfold set_col. by case_decide. }
  assert (Hgt : ∀ c, maintains eq (@col_gt_zero world c)).
  { intros [xs|xs|xs|xs] w; cbn; try done.
    unfold object_cmp_zero. by destruct (forallb _ xs). }
  assert (Hlt : ∀ c, maintains eq (@col_lt_zero world c)).
  { intros [xs|xs|xs|xs] w; cbn; try done.
    unfold object_cmp_zero. by destruct (forallb _ xs). }
  assert (Hloc : ∀ m n v d, maintains eq (@loc_set_str world m n v d)).
  { intros m n v d w. unfold loc_set_str. by destruct (columns d !! n) as [[]|]. }
  unfold classify_rows.
  repeat (apply maintains_bind; [tc_solve|auto|intros ?]). auto.
Qed.

(** Whenever the detection returns, the outlier model was fitted on two
    features, the values and the residuals, with contamination 0.05 and
    seed 42: the value-only feature matrix built first is never what is
    fitted. *)
Theorem features_always_include_residuals
    (data : DataFrame) (w : world) (out : DataFrame) (w' : world) :
  detect_anomalies STL_fit std IForest_fit data w = (Ret out, w') →
  ∃ y residuals g scores labels,
    columns out !! "y" = Some y
    ∧ columns out !! "residuals" = Some residuals
    ∧ IForest_fit (5 # 100) (Some 42) [y; residuals] g = (Ret (scores, labels), rng w')
    ∧ columns out !! "iforest_anomaly_score" = Some (Float64 scores)
    ∧ columns out !! "iforest_anomaly" = Some (Int64 labels).
Proof.
  intros H. unfold detect_anomalies in H.
  apply bind_Ret in H as (d1 & w1 & _ & H).
  apply bind_Ret in H as (d2 & w2 & _ & H).
  apply bind_Ret in H as (d3 & w3 & Hscore & H).
  apply score_fitted in Hscore
    as (y & r & scores & labels & Hy & Hr & Hfit & -> & _).
  assert (w' = w3) as ->.
  { pose proof (classify_rows_state
                  (Frame (index d2)
                     (<["iforest_anomaly" := Int64 labels]>
                        (<["iforest_anomaly_score" := Float64 scores]> (columns d2))))
                  w3) as Hst.
    by rewrite H in Hst. }
  apply classify_rows_spec with (labels := labels) in H
    as (residuals & types & Hres & -> & _ & _);
    [|by cbn; rewrite lookup_insert_eq].
  cbn in Hres. rewrite !lookup_insert_ne in Hres by done.
  rewrite Hr in Hres. injection Hres as <-.
  exists y, r, (rng w2), scores, labels. cbn. split_and!.
  - by rewrite !lookup_insert_ne by done.
  - by rewrite !lookup_insert_ne by done.
  - done.
  - rewrite !lookup_insert_ne by done. by rewrite lookup_insert_eq.
  - rewrite !lookup_insert_ne by done. by rewrite lookup_insert_eq.
Qed.

End detection_returns.

Lemma detect_anomalies_returns_witness :
  ∃ out w',
    V1_app.detect_anomalies V1_doubles.STL_fit V1_doubles.std V1_doubles.IForest_fit
      V1_doubles.two_weeks (World [] 0) = (Ret out, w')
    ∧ ui w' = []
    ∧ index out = seqZ 1 14
    ∧ well_formed out.
Proof.
  edestruct (detect_anomalies_returns
               V1_doubles.STL_fit V1_doubles.std V1_doubles.IForest_fit
               V1_doubles.two_weeks (World [] 0))
    as (stl & types & Hrun & _ & _ & Hwf).
  - vm_compute. reflexivity.
  - vm_compute. reflexivity.
  - vm_compute. reflexivity.
  - vm_compute. reflexivity.
  - vm_compute. reflexivity.
  - vm_compute. reflexivity.
  - vm_compute. reflexivity.
  - eexists _, _. split; [exact Hrun|]. split; [done|]. split; [by vm_compute|].
    apply Hwf. unfold well_formed. apply (bool_decide_unpack _). vm_compute. exact I.
Defined.

Lemma features_always_include_residuals_witness :
  ∃ out w' y residuals g scores labels,
    V1_app.detect_anomalies V1_doubles.STL_fit V1_doubles.std V1_doubles.IForest_fit
      V1_doubles.two_weeks (World [] 0) = (Ret out, w')
    ∧ columns out !! "y" = Some y
    ∧ columns out !! "residuals" = Some residuals
    ∧ V1_doubles.IForest_fit (5 # 100) (Some 42) [y; residuals] g
      = (Ret (scores, labels), rng w')
    ∧ columns out !! "iforest_anomaly_score" = Some (Float64 scores)
    ∧ columns out !! "iforest_anomaly" = Some (Int64 labels).
Proof.
  assert (Hrun : ∃ out w',
            V1_app.detect_anomalies V1_doubles.STL_fit V1_doubles.std
              V1_doubles.IForest_fit V1_doubles.two_weeks (World [] 0) = (Ret out, w')).
  { eexists _, _. vm_compute. reflexivity. }
  destruct Hrun as (out & w' & Hrun).
  destruct (features_always_include_residuals
              V1_doubles.STL_fit V1_doubles.std V1_doubles.IForest_fit
              V1_doubles.two_weeks (World [] 0) out w' Hrun)
    as (y & residuals & g & scores & labels & H).
  by exists out, w', y, residuals, g, scores, labels.
Defined.

(** ** The decomposition threshold is never used *)

Section threshold_unused.
Import V1_app.

Variable STL_fit : column → Z → bool → outcome (list (option Q)).
Variable IForest_fit :
  Q → option Z → list column → Z → outcome (list (option Q) * list Z) * Z.

Lemma related_bind {S A B} (RA : A → A → Prop) (RB : B → B → Prop)
    (m1 m2 : M S A) (k1 k2 : A → M S B) (s : S) :
  related RA (m1 s) (m2 s) →
  (∀ a b s', RA a b → related RB (k1 a s') (k2 b s')) →
  related RB (bind m1 k1 s) (bind m2 k2 s).
Proof.
  intros [Hs Hr] Hk. unfold bind.
  destruct (m1 s) as [[a|e1] s1], (m2 s) as [[b|e2] s2]; cbn in *; subst;
    try done. by apply Hk.
Qed.

Lemma related_same {S A} (R : A → A → Prop) (m1 m2 : M S A) (s : S) :
  (∀ a, R a a) → m1 s = m2 s → related R (m1 s) (m2 s).
Proof.
  intros HR ->. split; [done|]. by destruct (m2 s) as [[a|e] s1]; cbn.
Qed.

Lemma agree_lookup (a b : DataFrame) (n : string) :
  same_but_stl_anomaly a b → n ≠ "stl_anomaly" → columns a !! n = columns b !! n.
Proof.
  intros [= _ H] Hn.
  by rewrite <- (lookup_delete_ne (columns a) "stl_anomaly" n),
             <- (lookup_delete_ne (columns b) "stl_anomaly" n), H.
Qed.

Lemma agree_index (a b : DataFrame) : same_but_stl_anomaly a b → index a = index b.
Proof. by intros [= H _]. Qed.

Lemma get_col_agree {S} (a b : DataFrame) (n : string) (s : S) :
  same_but_stl_anomaly a b → n ≠ "stl_anomaly" → get_col n a s = get_col n b s.
Proof. intros H Hn. unfold get_col. by rewrite (agree_lookup a b n). Qed.

Lemma select_agree {S} (a b : DataFrame) (names : list string) (s : S) :
  same_but_stl_anomaly a b → Forall (λ n, n ≠ "stl_anomaly") names →
  select names a s = select names b s.
Proof.
  intros H Hn. revert s. induction Hn as [|n names Hn _ IH]; intros s; [done|].
  cbn [select]. unfold bind. rewrite (get_col_agree a b n) by done.
  destruct (get_col n b s) as [[c|e] s1]; [|done]. by rewrite IH.
Qed.

Lemma agree_insert (a b : DataFrame) (i : list Z) (n : string) (c : column) :
  same_but_stl_anomaly a b → n ≠ "stl_anomaly" →
  same_but_stl_anomaly (Frame i (<[n := c]> (columns a)))
                       (Frame i (<[n := c]> (columns b))).
Proof.
  intros [= Hi Hc] Hn. unfold same_but_stl_anomaly, drop_column. cbn.
  by rewrite !delete_insert_ne, Hc by done.
Qed.

Lemma set_col_agree {S} (a b : DataFrame) (n : string) (c : column) (s : S) :
  same_but_stl_anomaly a b → n ≠ "stl_anomaly" →
  related same_but_stl_anomaly (set_col n c a s) (set_col n c b s).
Proof.
  intros H Hn. unfold set_col. rewrite (agree_index a b H).
  case_decide; [|done]. split; [done|]. cbn. by apply agree_insert.
Qed.

Lemma loc_set_str_agree {S} (a b : DataFrame) (mask : list bool) (n v : string) (s : S) :
  same_but_stl_anomaly a b → n ≠ "stl_anomaly" →
  related same_but_stl_anomaly (loc_set_str mask n v a s) (loc_set_str mask n v b s).
Proof.
  intros H Hn. unfold loc_set_str.
  rewrite <- (agree_lookup a b n H Hn), (agree_index a b H).
  destruct (columns a !! n) as [[]|]; try done.
  - split; [done|]. cbn. by apply agree_insert.
  - split; [done|]. cbn. by apply agree_insert.
Qed.

Lemma score_agree (a b : DataFrame) (w : world) :
  same_but_stl_anomaly a b →
  related same_but_stl_anomaly (score IForest_fit a w) (score IForest_fit b w).
Proof.
  intros H. unfold score.
  apply (related_bind eq).
  { apply related_same; [done|]. apply select_agree; [done|]. by repeat constructor. }
  intros X0 ? w1 <-. apply (related_bind eq).
  { apply related_same; [done|]. by apply get_col_agree. }
  intros r ? w2 <-. apply (related_bind eq).
  { apply related_same; [done|]. unfold is_not_None.
    apply select_agree; [done|]. by repeat constructor. }
  intros X ? w3 <-. apply (related_bind eq).
  { by apply related_same. }
  intros fitted ? w4 <-. apply (related_bind same_but_stl_anomaly).
  { by apply set_col_agree. }
  intros a1 b1 w5 H1. by apply set_col_agree.
Qed.

Lemma classify_rows_agree (a b : DataFrame) (w : world) :
  same_but_stl_anomaly a b →
  related same_but_stl_anomaly (classify_rows a w) (classify_rows b w).
Proof.
  intros H. unfold classify_rows.
  apply (related_bind same_but_stl_anomaly).
  { unfold broadcast_nan. rewrite (agree_index a b H). by apply set_col_agree. }
  intros a1 b1 w1 H1. apply (related_bind eq).
  { apply related_same; [done|]. by apply get_col_agree. }
  intros f ? w2 <-. apply (related_bind eq).
  { apply related_same; [done|]. by apply get_col_agree. }
  intros r ? w3 <-. apply (related_bind eq).
  { by apply related_same. }
  intros pos ? w4 <-. apply (related_bind same_but_stl_anomaly).
  { by apply loc_set_str_agree. }
  intros a2 b2 w5 H2. apply (related_bind eq).
  { apply related_same; [done|]. by apply get_col_agree. }
  intros f' ? w6 <-. apply (related_bind eq).
  { apply related_same; [done|]. by apply get_col_agree. }
  intros r' ? w7 <-. apply (related_bind eq).
  { by apply related_same. }
  intros neg ? w8 <-. by apply loc_set_str_agree.
Qed.

Lemma try_except_ok {S A} (m : M S A) (h : exn → M S A) s a s' :
  m s = (Ret a, s') → try_except m h s = (Ret a, s').
Proof. intros H. unfold try_except. by rewrite H. Qed.

Lemma try_except_fail {S A} (m : M S A) (h : exn → M S A) s e s' :
  m s = (Raise e, s') → try_except m h s = h e s'.
Proof. intros H. unfold try_except. by rewrite H. Qed.

(** Either the decomposition succeeds, and only the content of
    [stl_anomaly] depends on the standard deviation, or the handler runs,
    and nothing does. *)
Lemma decompose_cases (data : DataFrame) (w : world) :
  (∃ resid,
     ∀ std, ∃ stl,
       decompose STL_fit std data w
       = (Ret (Frame (index data)
                 (<["stl_anomaly" := Int64 stl]>
                    (<["residuals" := Float64 resid]> (columns data)))), w))
  ∨ (∃ e,
       ∀ std,
         decompose STL_fit std data w
         = (Ret (Frame (index data)
                   (<["stl_anomaly" := broadcast_int 0 data]> (columns data))),
            World (ui w ++ [st_warning ("Warning: STL decomposition failed. "
                                        +:+ exn_str e)]) (rng w))).
Proof.
  assert (Hhandler : ∀ e,
            (emit (st_warning ("Warning: STL decomposition failed. " +:+ exn_str e)) ;;;
             set_col "stl_anomaly" (broadcast_int 0 data) data) w
            = (Ret (Frame (index data)
                      (<["stl_anomaly" := broadcast_int 0 data]> (columns data))),
               World (ui w ++ [st_warning ("Warning: STL decomposition failed. "
                                           +:+ exn_str e)]) (rng w))).
  { intros e. erewrite bind_ok; [|done].
    apply set_col_ok. cbn. by rewrite length_replicate. }
  destruct (columns data !! "y") as [y|] eqn:Hy.
  - destruct (STL_fit y 7 true) as [resid|e] eqn:Hstl.
    + destruct (decide (length resid = length (index data))) as [Hlen|Hlen].
      * left. exists resid. intros std.
        destruct (decompose_success STL_fit std data w y resid Hy Hstl Hlen)
          as (stl & _ & Hrun).
        by exists stl.
      * right. eexists. intros std. unfold decompose.
        erewrite try_except_fail; [by apply Hhandler|].
        erewrite bind_ok; [|by apply get_col_ok].
        erewrite bind_ok; [|unfold call; by rewrite Hstl].
        apply bind_fail. unfold set_col. by rewrite decide_False.
    + right. exists e. intros std. unfold decompose.
      erewrite try_except_fail; [by apply Hhandler|].
      erewrite bind_ok; [|by apply get_col_ok].
      apply bind_fail. unfold call. by rewrite Hstl.
  - right. exists (KeyError "y"). intros std. unfold decompose.
    erewrite try_except_fail; [by apply Hhandler|].
    apply bind_fail. unfold get_col. by rewrite Hy.
Qed.

Lemma decompose_agree (std1 std2 : list (option Q) → option Q)
    (data : DataFrame) (w : world) :
  related same_but_stl_anomaly
    (decompose STL_fit std1 data w) (decompose STL_fit std2 data w).
Proof.
  destruct (decompose_cases data w) as [[resid H]|[e H]].
  - destruct (H std1) as [stl1 ->], (H std2) as [stl2 ->].
    split; [done|]. cbn. unfold same_but_stl_anomaly, drop_column. cbn.
    by rewrite !delete_insert_eq.
  - rewrite (H std1), (H std2). split; [done|]. by cbn.
Qed.

(** The threshold of three standard deviations, and with it the column
    [stl_anomaly], has no influence on the rest of the detection: with any
    two ways of computing the standard deviation, the runs end in the same
    state and raise the same exception or return frames that differ at most
    in that column. *)
Theorem stl_threshold_never_used (std1 std2 : list (option Q) → option Q)
    (data : DataFrame) (w : world) :
  related same_but_stl_anomaly
    (detect_anomalies STL_fit std1 IForest_fit data w)
    (detect_anomalies STL_fit std2 IForest_fit data w).
Proof.
  unfold detect_anomalies.
  apply (related_bind eq); [by apply related_same|].
  intros d1 ? w1 <-. apply (related_bind same_but_stl_anomaly).
  { apply decompose_agree. }
  intros a b w2 H. apply (related_bind same_but_stl_anomaly).
  { by apply score_agree. }
  intros a1 b1 w3 H1. by apply classify_rows_agree.
Qed.

End threshold_unused.

(** ** The table of top anomalies on display *)

Section top_table.
Import V1_app.





End top_table.


(** ** The markers of the chart *)

Section markers.
Import V1_app.

Lemma row_cell (df : DataFrame) (i : nat) (r : Z * gmap string cell)
    (n : string) (c : column) :
  row_at df i = Some r → columns df !! n = Some c → r.2 !! n = col_cell c i.
Proof.
  unfold row_at. destruct (index df !! i) as [label|]; [|done].
  intros [= <-] Hc. cbn. by rewrite lookup_omap, Hc.
Qed.

Lemma rows_boolean_index_by (df : DataFrame) (mask : list bool)
    (Q : Z * gmap string cell → Prop) `{∀ r, Decision (Q r)} :
  well_formed df →
  length mask = length (index df) →
  (∀ i r, row_at df i = Some r → (mask !! i = Some true ↔ Q r)) →
  rows (boolean_index mask df) = filter Q (rows df).
Proof.
  intros Hwf Hlen HQ. unfold boolean_index.
  rewrite rows_take_rows; [|done|rewrite <- Hlen; apply nonzero_in_range].
  unfold nonzero. rewrite Hlen, rows_seq. apply omap_filter.
  intros i r _ Hr. by apply HQ.
Qed.

Lemma boolean_index_well_formed (df : DataFrame) (mask : list bool) :
  well_formed df → length mask = length (index df) →
  well_formed (boolean_index mask df).
Proof.
  intros Hwf Hlen. apply take_rows_well_formed; [done|].
  rewrite <- Hlen. apply nonzero_in_range.
Qed.

Lemma rows_by_direction (df : DataFrame) (kinds : list (option string)) (v : string) :
  well_formed df →
  columns df !! "anomaly_type" = Some (Object kinds) →
  rows (boolean_index (col_eq_str (Object kinds) v) df)
  = filter (λ r, direction_of r = Some v) (rows df).
Proof.
  intros Hwf Hk. apply rows_boolean_index_by; [done| |].
  - cbn. rewrite length_fmap. by apply Hwf in Hk.
  - intros i r Hr. unfold direction_of. rewrite (row_cell df i r _ _ Hr Hk).
    cbn. rewrite list_lookup_fmap.
    destruct (kinds !! i) as [k|]; cbn; [|done].
    split.
    + intros [= Hb]. by apply bool_decide_eq_true in Hb.
    + intros Hv. f_equal. by apply bool_decide_eq_true.
Qed.

(** The spike markers are the flagged rows whose direction is Spike, the
    drop markers the flagged rows whose direction is Drop, both in the order
    of the frame; no row is drawn with both markers. *)
Theorem anomaly_markers_split (df : DataFrame) (w : world)
    (labels : list Z) (kinds : list (option string)) :
  well_formed df →
  columns df !! "iforest_anomaly" = Some (Int64 labels) →
  columns df !! "anomaly_type" = Some (Object kinds) →
  ∃ spikes drops,
    anomaly_markers df w = (Ret (spikes, drops), w)
    ∧ rows spikes
      = filter (λ r, direction_of r = Some "Spike" ∧ is_anomaly r = true) (rows df)
    ∧ rows drops
      = filter (λ r, direction_of r = Some "Drop" ∧ is_anomaly r = true) (rows df)
    ∧ ∀ r, r ∈ rows spikes → r ∉ rows drops.
Proof.
  intros Hwf Hlab Hk.
  set (anomalies := boolean_index (col_eq_int (Int64 labels) 1) df).
  assert (Hmask : length (col_eq_int (Int64 labels) 1) = length (index df)).
  { cbn. rewrite length_fmap. by apply Hwf in Hlab. }
  assert (Hwf' : well_formed anomalies) by (by apply boolean_index_well_formed).
  set (kinds' := omap (λ i, kinds !! i) (nonzero (col_eq_int (Int64 labels) 1))).
  assert (Hk' : columns anomalies !! "anomaly_type" = Some (Object kinds')).
  { unfold anomalies, boolean_index. by rewrite columns_take_rows, lookup_fmap, Hk. }
  assert (Hrows : rows anomalies = filter (λ r, is_anomaly r = true) (rows df))
    by (by apply rows_boolean_index).
  exists (boolean_index (col_eq_str (Object kinds') "Spike") anomalies),
         (boolean_index (col_eq_str (Object kinds') "Drop") anomalies).
  split_and!.
  - unfold anomaly_markers.
    erewrite bind_ok; [|by apply get_col_ok]. fold anomalies.
    erewrite bind_ok; [|by apply get_col_ok].
    erewrite bind_ok; [|by apply get_col_ok]. done.
  - by rewrite (rows_by_direction anomalies kinds'), Hrows, list_filter_filter.
  - by rewrite (rows_by_direction anomalies kinds'), Hrows, list_filter_filter.
  - intros r Hs Hd.
    rewrite (rows_by_direction anomalies kinds') in Hs, Hd by done.
    apply list_elem_of_filter in Hs as [Hs _], Hd as [Hd _]. congruence.
Qed.

End markers.

Lemma anomaly_markers_split_witness :
  ∃ spikes drops,
    V1_app.anomaly_markers V1_doubles.four_classified (World [] 0)
    = (Ret (spikes, drops), World [] 0)
    ∧ rows spikes
      = filter (λ r, V1_app.direction_of r = Some "Spike" ∧ V1_app.is_anomaly r = true)
               (rows V1_doubles.four_classified)
    ∧ rows drops
      = filter (λ r, V1_app.direction_of r = Some "Drop" ∧ V1_app.is_anomaly r = true)
               (rows V1_doubles.four_classified)
    ∧ ∀ r, r ∈ rows spikes → r ∉ rows drops.
Proof.
  eapply (anomaly_markers_split V1_doubles.four_classified (World [] 0)).
  - unfold well_formed. apply (bool_decide_unpack _). vm_compute. exact I.
  - vm_compute. reflexivity.
  - vm_compute. reflexivity.
Defined.

(** On the four sample days: day 1 gets the spike marker, day 4 the drop
    marker, day 2 is flagged without a marker. *)
Example four_days_markers :
  ∃ spikes drops,
    V1_app.anomaly_markers V1_doubles.four_classified (World [] 0)
    = (Ret (spikes, drops), World [] 0)
    ∧ index spikes = [1] ∧ index drops = [4].
Proof. eexists _, _. split; [vm_compute; reflexivity|]. by vm_compute. Qed.

(** ** The series of a data set *)

Section series_partition.
Import V2_app.

Lemma elem_of_drop_duplicates (l : list (Z * Z)) (p : Z * Z) :
  p ∈ drop_duplicates l ↔ p ∈ l.
Proof.
  induction l as [|q l IH]; [done|]. cbn [drop_duplicates].
  rewrite !elem_of_cons, list_elem_of_filter, IH.
  destruct (decide (p = q)); tauto.
Qed.

Lemma NoDup_drop_duplicates (l : list (Z * Z)) : NoDup (drop_duplicates l).
Proof.
  induction l as [|q l IH]; [constructor|]. cbn [drop_duplicates].
  constructor; [|by apply NoDup_filter].
  intros [Hne _]%list_elem_of_filter. done.
Qed.

Lemma series_cons (r : sale) (df : list sale) (p : Z * Z) :
  series (r :: df) p
  = if decide ((store r, item r) = p) then r :: series df p else series df p.
Proof.
  unfold series. rewrite filter_cons. destruct p as [s i]. cbn.
  destruct (decide ((store r, item r) = (s, i))) as [[= <- <-]|Hne].
  - by rewrite decide_True.
  - rewrite decide_False; [done|]. intros [<- <-]. done.
Qed.

Lemma mjoin_one_more (r : sale) (k : Z * Z) (f : Z * Z → list sale) (ps : list (Z * Z)) :
  NoDup ps → k ∈ ps →
  mjoin ((λ p, if decide (k = p) then r :: f p else f p) <$> ps)
  ≡ₚ r :: mjoin (f <$> ps).
Proof.
  induction 1 as [|q ps Hq Hps IH]; intros Hk; [by apply elem_of_nil in Hk|].
  cbn. destruct (decide (k = q)) as [->|Hne].
  - cbn. f_equiv. f_equiv.
    apply reflexive_eq. f_equal. apply list_fmap_ext. intros i p Hp.
    rewrite decide_False; [done|]. intros <-. apply Hq.
    by eapply list_elem_of_lookup_2.
  - apply elem_of_cons in Hk as [?|Hk]; [done|].
    rewrite IH by done. by rewrite Permutation_middle.
Qed.

Lemma series_cover (df : list sale) (ps : list (Z * Z)) :
  NoDup ps → (∀ r, r ∈ df → (store r, item r) ∈ ps) →
  mjoin (series df <$> ps) ≡ₚ df.
Proof.
  intros Hps. induction df as [|r df IH]; intros Hin.
  - clear. induction ps as [|p ps IH]; [done|]. cbn. by rewrite IH.
  - rewrite (list_fmap_ext (series (r :: df))
               (λ p, if decide ((store r, item r) = p) then r :: series df p
                     else series df p) ps)
      by (intros; apply series_cons).
    rewrite mjoin_one_more by (done || apply Hin; left).
    f_equiv. apply IH. intros r' Hr'. apply Hin. by right.
Qed.

(** The pairs the runner iterates over are without duplicates and are
    exactly the (store, item) pairs of the rows; the series of these pairs
    are non-empty and together hold every row of the data set exactly
    once. *)
Theorem series_partition (df : list sale) :
  NoDup (all_pairs df)
  ∧ (∀ p, p ∈ all_pairs df ↔ ∃ r, r ∈ df ∧ (store r, item r) = p)
  ∧ (∀ p, p ∈ all_pairs df → series df p ≠ [])
  ∧ mjoin (series df <$> all_pairs df) ≡ₚ df.
Proof.
  assert (Hmem : ∀ p, p ∈ all_pairs df ↔ ∃ r, r ∈ df ∧ (store r, item r) = p).
  { intros p. unfold all_pairs. rewrite elem_of_drop_duplicates, list_elem_of_fmap.
    split; intros (r & ? & ?); exists r; by split. }
  split_and!.
  - apply NoDup_drop_duplicates.
  - done.
  - intros p (r & Hr & <-)%Hmem Hnil.
    assert (Hin : r ∈ series df (store r, item r))
      by (unfold series; by apply list_elem_of_filter).
    rewrite Hnil in Hin. by apply elem_of_nil in Hin.
  - apply series_cover; [apply NoDup_drop_duplicates|].
    intros r Hr. apply Hmem. eauto.
Qed.

End series_partition.

(** ** What the forecast view shows *)

Section forecast_view.
Import V2_app.

Variable model : Type.
Variable Prophet_fit : list sale → Z → outcome model * Z.
Variable make_future_dataframe : model → Z → list Z.
Variable predict : model → list Z → Z → outcome (list forecast_row) * Z.

#[local] Abbreviation load_and_forecast_data :=
  (load_and_forecast_data model Prophet_fit make_future_dataframe predict).
#[local] Abbreviation is_forecast_of :=
  (is_forecast_of model Prophet_fit make_future_dataframe predict).

Lemma load_Ret (df : list sale) (w : world) r w' :
  load_and_forecast_data (Some df) w = (Ret r, w') →
  ∃ outs, r = (Some df, Some (mjoin outs))
    ∧ Forall2 (is_forecast_of df) (all_pairs df) outs.
Proof.
  intros H. unfold V2_app.load_and_forecast_data in H.
  apply bind_Ret in H as (? & w1 & _ & H).
  apply bind_Ret in H as (res & w2 & Hloop & H).
  apply forecast_loop_Ret in Hloop as (outs & -> & Houts).
  apply bind_Ret in H as (fdf & w3 & Hcat & H).
  unfold concat in Hcat. cbn [app] in Hcat.
  destruct outs as [|out outs]; [discriminate|].
  apply ret_Ret in Hcat as [-> ->].
  apply bind_Ret in H as (? & w4 & _ & [-> _]%ret_Ret).
  by exists (out :: outs).
Qed.

Lemma filter_tagged (p q : Z * Z) (predicted : list forecast_row) :
  filter (λ r, row_store r = p.1 ∧ row_item r = p.2) (tag q predicted)
  = if decide (p = q) then tag q predicted else [].
Proof.
  unfold tag. destruct p as [s i], q as [s' i']. cbn.
  induction predicted as [|x l IH]; [by case_decide|].
  rewrite fmap_cons, filter_cons, IH. cbn.
  destruct (decide ((s, i) = (s', i'))) as [[= -> ->]|Hne].
  - by rewrite decide_True.
  - rewrite decide_False; [done|]. intros [<- <-]. done.
Qed.

Lemma filter_forecasts (df : list sale) (pairs : list (Z * Z))
    (outs : list (list tagged_row)) (p : Z * Z) :
  Forall2 (is_forecast_of df) pairs outs → NoDup pairs →
  if decide (p ∈ pairs)
  then ∃ out, is_forecast_of df p out
         ∧ filter (λ r, row_store r = p.1 ∧ row_item r = p.2) (mjoin outs) = out
  else filter (λ r, row_store r = p.1 ∧ row_item r = p.2) (mjoin outs) = [].
Proof.
  induction 1 as [|q out pairs outs Hq _ IH]; intros Hnd.
  { by rewrite decide_False by (by intros ?%elem_of_nil). }
  apply NoDup_cons in Hnd as [Hq_new Hnd]. specialize (IH Hnd).
  assert (Hsplit : filter (λ r, row_store r = p.1 ∧ row_item r = p.2)
                     (mjoin (out :: outs))
                   = ((if decide (p = q) then out else [])
                      ++ filter (λ r, row_store r = p.1 ∧ row_item r = p.2)
                           (mjoin outs))%list).
  { change (mjoin (out :: outs)) with (out ++ mjoin outs)%list.
    rewrite filter_app. f_equal.
    destruct Hq as (g & m & g1 & predicted & g2 & _ & _ & ->). apply filter_tagged. }
  destruct (decide (p = q)) as [->|Hne].
  - rewrite decide_True by left. rewrite decide_False in IH by done.
    exists out. split; [done|]. by rewrite Hsplit, IH, app_nil_r.
  - destruct (decide (p ∈ pairs)) as [Hp|Hp].
    + rewrite decide_True by (by right). destruct IH as (o & Ho & Hf).
      exists o. split; [done|]. by rewrite Hsplit.
    + rewrite decide_False by (by intros [?|?]%elem_of_cons). by rewrite Hsplit.
Qed.

(** When the runner has returned, the forecast drawn for the selected store
    and item is exactly the forecast made for that series, fitted on the
    rows of that series alone; for a pair that is not in the data the view
    is empty. *)
Theorem forecast_view_is_selected_series (df : list sale) (w : world)
    (df_data : list sale) (df_forecast : list tagged_row) (w' : world)
    (selected_store selected_item : Z) :
  load_and_forecast_data (Some df) w = (Ret (Some df_data, Some df_forecast), w') →
  df_data = df
  ∧ if decide ((selected_store, selected_item) ∈ all_pairs df)
    then is_forecast_of df (selected_store, selected_item)
           (filter (λ r, row_store r = selected_store ∧ row_item r = selected_item)
                   df_forecast)
    else filter (λ r, row_store r = selected_store ∧ row_item r = selected_item)
                df_forecast = [].
Proof.
  intros (outs & [= -> ->] & Houts)%load_Ret. split; [done|].
  pose proof (filter_forecasts df (all_pairs df) outs (selected_store, selected_item)
                Houts (NoDup_drop_duplicates _)) as H.
  cbn [fst snd] in H. destruct (decide (_ ∈ all_pairs df)); [|done].
  by destruct H as (out & Hout & ->).
Qed.

End forecast_view.

Lemma forecast_view_is_selected_series_witness :
  ∃ df_forecast w',
    V2_app.load_and_forecast_data V2_doubles.model V2_doubles.Prophet_fit
      V2_doubles.make_future_dataframe V2_doubles.predict
      (Some V2_doubles.two_series) (World [] 0)
    = (Ret (Some V2_doubles.two_series, Some df_forecast), w')
    ∧ V2_app.is_forecast_of V2_doubles.model V2_doubles.Prophet_fit
        V2_doubles.make_future_dataframe V2_doubles.predict
        V2_doubles.two_series (1, 2)
        (filter (λ r, V2_app.row_store r = 1 ∧ V2_app.row_item r = 2) df_forecast).
Proof.
  assert (Hrun : ∃ df_forecast w',
            V2_app.load_and_forecast_data V2_doubles.model V2_doubles.Prophet_fit
              V2_doubles.make_future_dataframe V2_doubles.predict
              (Some V2_doubles.two_series) (World [] 0)
            = (Ret (Some V2_doubles.two_series, Some df_forecast), w')).
  { eexists _, _. vm_compute. reflexivity. }
  destruct Hrun as (df_forecast & w' & Hrun).
  exists df_forecast, w'. split; [done|].
  destruct (forecast_view_is_selected_series V2_doubles.model V2_doubles.Prophet_fit
              V2_doubles.make_future_dataframe V2_doubles.predict
              V2_doubles.two_series (World [] 0) V2_doubles.two_series
              df_forecast w' 1 2 Hrun) as [_ H].
  rewrite decide_True in H; [done|]. vm_compute. set_solver.
Defined.

(** ** The two caches *)

Section caches.
Import V2_app.

Variable model : Type.
Variable Prophet_fit : list sale → Z → outcome model * Z.
Variable make_future_dataframe : model → Z → list Z.
Variable predict : model → list Z → Z → outcome (list forecast_row) * Z.
Variable cv_frame : Type.
Variable cross_validation : model → Z → Z → Z → Z → outcome cv_frame * Z.
Variable performance_metrics : cv_frame → outcome (list metric_row).

#[local] Abbreviation load_and_forecast_data :=
  (load_and_forecast_data model Prophet_fit make_future_dataframe predict).
#[local] Abbreviation get_backtest_metrics :=
  (get_backtest_metrics model Prophet_fit cv_frame cross_validation performance_metrics).
#[local] Abbreviation cached_load_and_forecast_data :=
  (cached_load_and_forecast_data model Prophet_fit make_future_dataframe predict).
#[local] Abbreviation cached_get_backtest_metrics :=
  (cached_get_backtest_metrics model Prophet_fit cv_frame cross_validation
     performance_metrics).
#[local] Abbreviation dashboard :=
  (dashboard model Prophet_fit cv_frame cross_validation performance_metrics).
#[local] Abbreviation script :=
  (script model Prophet_fit make_future_dataframe predict cv_frame cross_validation
     performance_metrics).
#[local] Abbreviation run :=
  (run model Prophet_fit make_future_dataframe predict cv_frame cross_validation
     performance_metrics).
#[local] Abbreviation run_all :=
  (run_all model Prophet_fit make_future_dataframe predict cv_frame cross_validation
     performance_metrics).

(** The runner on a missing file and on a file without rows. *)
Theorem batch_runner_without_data (w : world) :
  load_and_forecast_data None w
  = (Ret (None, None),
     World ((ui w ++ [forecast_started])
            ++ [st_error "Error: 'data/train.csv' not found. Please place the file in the 'data' subfolder inside your 'V2' directory."])
           (rng w))
  ∧ load_and_forecast_data (Some []) w
    = (Raise (ValueError "No objects to concatenate"),
       World (ui w ++ [forecast_started]) (rng w)).
Proof. done. Qed.

Lemma lift_ok {A} (m : M world A) (s : session) r w' :
  m (env s) = (r, w') →
  lift m s = (r, Session w' (forecast_cache s) (backtest_cache s) (session_state s)).
Proof. intros H. unfold lift. by rewrite H. Qed.

Lemma cached_backtest_hit df s v :
  cache_lookup df (backtest_cache s) = Some v →
  cached_get_backtest_metrics df s = (Ret v, s).
Proof.
  intros H. unfold V2_app.cached_get_backtest_metrics, bind, get_session. by rewrite H.
Qed.

Lemma cached_backtest_miss_Ret df s v w' :
  cache_lookup df (backtest_cache s) = None →
  get_backtest_metrics df (env s) = (Ret v, w') →
  cached_get_backtest_metrics df s
  = (Ret v, Session w' (forecast_cache s) ((df, v) :: backtest_cache s) (session_state s)).
Proof.
  intros H Hrun. unfold V2_app.cached_get_backtest_metrics, bind at 1, get_session.
  rewrite H. erewrite bind_ok; [|by apply lift_ok]. done.
Qed.

Lemma cached_backtest_miss_Raise df s e w' :
  cache_lookup df (backtest_cache s) = None →
  get_backtest_metrics df (env s) = (Raise e, w') →
  cached_get_backtest_metrics df s
  = (Raise e, Session w' (forecast_cache s) (backtest_cache s) (session_state s)).
Proof.
  intros H Hrun. unfold V2_app.cached_get_backtest_metrics, bind at 1, get_session.
  rewrite H. erewrite bind_fail; [|by apply lift_ok]. done.
Qed.

Lemma dashboard_click df fdf inp s v s1 :
  clicked inp = true →
  cached_get_backtest_metrics df s = (Ret v, s1) →
  dashboard inp (Some df, Some fdf) s
  = (Ret (Some (View
                  (filter (λ r, row_store r = selected_store inp
                                ∧ row_item r = selected_item inp) fdf)
                  (filter (λ r, store r = selected_store inp
                                ∧ item r = selected_item inp) df)
                  (Some (take 10 v)))),
     Session (env s1) (forecast_cache s1) (backtest_cache s1)
             (<["df_metrics" := v]> (session_state s1))).
Proof.
  intros Hclick Hget. unfold V2_app.dashboard. rewrite Hclick.
  erewrite bind_ok.
  2:{ erewrite bind_ok; [|exact Hget]. by erewrite bind_ok. }
  erewrite bind_ok; [|done]. cbn [session_state]. by rewrite lookup_insert_eq.
Qed.

(** The backtest is computed once per data set.  A click on a loaded data
    set that was not backtested before runs the backtest, stores its rows
    in the cache and in the session state and displays the first ten.  A
    second click finds them in the cache: the body does not run, so nothing
    is drawn from the random generator, both caches and the session state
    stay as they are, and the same ten rows are displayed. *)
Theorem backtest_computed_once (s : session) (inp1 inp2 : interaction)
    (df : list sale) (fdf : list tagged_row) (v : list metric_row) (w' : world) :
  forecast_cache s = Some (Some df, Some fdf) →
  cache_lookup df (backtest_cache s) = None →
  get_backtest_metrics df (env s) = (Ret v, w') →
  clicked inp1 = true →
  clicked inp2 = true →
  (rng (env (run s inp1)) = rng w'
   ∧ forecast_cache (run s inp1) = forecast_cache s
   ∧ backtest_cache (run s inp1) = (df, v) :: backtest_cache s
   ∧ session_state (run s inp1) = <["df_metrics" := v]> (session_state s)
   ∧ shown_metrics (script inp1 s).1 = Some (take 10 v))
  ∧ (rng (env (run (run s inp1) inp2)) = rng (env (run s inp1))
     ∧ forecast_cache (run (run s inp1) inp2) = forecast_cache (run s inp1)
     ∧ backtest_cache (run (run s inp1) inp2) = backtest_cache (run s inp1)
     ∧ session_state (run (run s inp1) inp2) = session_state (run s inp1)
     ∧ shown_metrics (script inp2 (run s inp1)).1 = Some (take 10 v)).
Proof.
  intros Hfc Hmiss Hrun Hc1 Hc2.
  assert (H1 : script inp1 s
          = (Ret (Some (View
                  (filter (λ r, row_store r = selected_store inp1
                                ∧ row_item r = selected_item inp1) fdf)
                  (filter (λ r, store r = selected_store inp1
                                ∧ item r = selected_item inp1) df)
                  (Some (take 10 v)))),
             Session w' (forecast_cache s) ((df, v) :: backtest_cache s)
               (<["df_metrics" := v]> (session_state s)))).
  { unfold V2_app.script.
    erewrite bind_ok; [|by apply cached_load_hit].
    erewrite dashboard_click; [|done|by apply cached_backtest_miss_Ret]. done. }
  set (s1 := Session w' (forecast_cache s) ((df, v) :: backtest_cache s)
               (<["df_metrics" := v]> (session_state s))) in *.
  assert (H2 : script inp2 s1
          = (Ret (Some (View
                  (filter (λ r, row_store r = selected_store inp2
                                ∧ row_item r = selected_item inp2) fdf)
                  (filter (λ r, store r = selected_store inp2
                                ∧ item r = selected_item inp2) df)
                  (Some (take 10 v)))), s1)).
  { unfold V2_app.script.
    erewrite bind_ok; [|by apply cached_load_hit].
    erewrite dashboard_click; [|done|apply cached_backtest_hit].
    - unfold s1. cbn. by rewrite insert_insert_eq.
    - unfold s1. cbn. by rewrite decide_True. }
  unfold V2_app.run. rewrite H1. cbn [fst snd]. fold s1. by rewrite H2.
Qed.

(** An exception is never cached.  When the batch forecast raises, its
    cache stays empty; when the backtest raises after a click, neither its
    cache nor the session state changes; in both cases the run ends with
    the exception. *)
Theorem failures_are_not_cached (s : session) (inp : interaction) :
  (∀ e w',
     forecast_cache s = None →
     load_and_forecast_data (csv inp) (env s) = (Raise e, w') →
     script inp s
     = (Raise e, Session w' None (backtest_cache s) (session_state s)))
  ∧ (∀ df fdf e w',
       forecast_cache s = Some (Some df, Some fdf) →
       clicked inp = true →
       cache_lookup df (backtest_cache s) = None →
       get_backtest_metrics df (env s) = (Raise e, w') →
       script inp s
       = (Raise e, Session w' (forecast_cache s) (backtest_cache s) (session_state s))).
Proof.
  split.
  - intros e w' Hfc Hrun. unfold V2_app.script. apply bind_fail.
    unfold V2_app.cached_load_and_forecast_data, bind at 1, get_session. rewrite Hfc.
    apply bind_fail. erewrite lift_ok by done. by rewrite Hfc.
  - intros df fdf e w' Hfc Hclick Hmiss Hrun. unfold V2_app.script.
    erewrite bind_ok; [|by apply cached_load_hit].
    unfold V2_app.dashboard. rewrite Hclick.
    apply bind_fail, bind_fail. by apply cached_backtest_miss_Raise.
Qed.

Lemma script_without_data (s : session) (inp : interaction) :
  forecast_cache s = Some (None, None) → script inp s = (Ret None, s).
Proof.
  intros H. unfold V2_app.script. erewrite bind_ok; [|by apply cached_load_hit]. done.
Qed.

Lemma run_all_without_data (s : session) (inps : list interaction) :
  forecast_cache s = Some (None, None) → run_all s inps = s.
Proof.
  intros H. induction inps as [|inp inps IH]; [done|].
  change (run_all (run s inp) inps = s).
  replace (run s inp) with s; [done|].
  unfold V2_app.run. by rewrite script_without_data.
Qed.

(** A missing file is cached like any other result.  After a first run
    without the file the forecast cache holds the pair (None, None), and
    every later run, whatever file is then on disk and whether or not the
    button is clicked, gets that pair from the cache: it displays no view,
    reads no file, runs no backtest and leaves both caches, the session
    state and the random generator as they are. *)
Theorem missing_file_is_cached (g : Z) (selected_store selected_item : Z) (c : bool)
    (inps : list interaction) :
  forecast_cache (run (fresh g) (Interaction None selected_store selected_item c))
  = Some (None, None)
  ∧ forecast_cache
      (run_all (run (fresh g) (Interaction None selected_store selected_item c)) inps)
    = Some (None, None)
  ∧ backtest_cache
      (run_all (run (fresh g) (Interaction None selected_store selected_item c)) inps)
    = []
  ∧ session_state
      (run_all (run (fresh g) (Interaction None selected_store selected_item c)) inps)
    = ∅
  ∧ rng (env (run_all (run (fresh g)
                         (Interaction None selected_store selected_item c)) inps))
    = g
  ∧ ∀ inp,
      (script inp
         (run_all (run (fresh g) (Interaction None selected_store selected_item c))
            inps)).1
      = Ret None.
Proof.
  set (s1 := run (fresh g) (Interaction None selected_store selected_item c)).
  assert (Hfc : forecast_cache s1 = Some (None, None)) by done.
  rewrite (run_all_without_data s1 inps Hfc).
  split_and!; first [done | intros inp; by rewrite script_without_data].
Qed.

End caches.

Lemma backtest_computed_once_witness :
  let run := V2_app.run V2_doubles.model V2_doubles.Prophet_fit
               V2_doubles.make_future_dataframe V2_doubles.predict V2_doubles.cv_frame
               V2_doubles.cross_validation V2_doubles.performance_metrics in
  let script := V2_app.script V2_doubles.model V2_doubles.Prophet_fit
                  V2_doubles.make_future_dataframe V2_doubles.predict
                  V2_doubles.cv_frame V2_doubles.cross_validation
                  V2_doubles.performance_metrics in
  let s := run (V2_app.fresh 0)
             (V2_app.Interaction (Some V2_doubles.four_years) 1 1 false) in
  let inp1 := V2_app.Interaction (Some V2_doubles.four_years) 1 1 true in
  let inp2 := V2_app.Interaction None 1 2 true in
  ∃ v w',
    (rng (V2_app.env (run s inp1)) = rng w'
     ∧ V2_app.forecast_cache (run s inp1) = V2_app.forecast_cache s
     ∧ V2_app.backtest_cache (run s inp1)
       = (V2_doubles.four_years, v) :: V2_app.backtest_cache s
     ∧ V2_app.session_state (run s inp1)
       = <["df_metrics" := v]> (V2_app.session_state s)
     ∧ V2_app.shown_metrics (script inp1 s).1 = Some (take 10 v))
    ∧ (rng (V2_app.env (run (run s inp1) inp2)) = rng (V2_app.env (run s inp1))
       ∧ V2_app.forecast_cache (run (run s inp1) inp2)
         = V2_app.forecast_cache (run s inp1)
       ∧ V2_app.backtest_cache (run (run s inp1) inp2)
         = V2_app.backtest_cache (run s inp1)
       ∧ V2_app.session_state (run (run s inp1) inp2)
         = V2_app.session_state (run s inp1)
       ∧ V2_app.shown_metrics (script inp2 (run s inp1)).1 = Some (take 10 v)).
Proof.
  intros run script s inp1 inp2. eexists _, _.
  eapply (backtest_computed_once V2_doubles.model V2_doubles.Prophet_fit
            V2_doubles.make_future_dataframe V2_doubles.predict V2_doubles.cv_frame
            V2_doubles.cross_validation V2_doubles.performance_metrics
            s inp1 inp2 V2_doubles.four_years).
  - vm_compute. reflexivity.
  - vm_compute. reflexivity.
  - vm_compute. reflexivity.
  - reflexivity.
  - reflexivity.
Defined.

Lemma failures_are_not_cached_witness :
  (∃ e w',
     V2_app.script V2_doubles.model V2_doubles.Prophet_fit
       V2_doubles.make_future_dataframe V2_doubles.predict V2_doubles.cv_frame
       V2_doubles.cross_validation V2_doubles.performance_metrics
       (V2_app.Interaction (Some V2_doubles.lonely_series) 1 1 false) (V2_app.fresh 0)
     = (Raise e, V2_app.Session w' None [] ∅))
  ∧ (let s := V2_app.run V2_doubles.model V2_doubles.Prophet_fit
                V2_doubles.make_future_dataframe V2_doubles.predict V2_doubles.cv_frame
                V2_doubles.cross_validation V2_doubles.performance_metrics
                (V2_app.fresh 0)
                (V2_app.Interaction (Some V2_doubles.other_store) 2 1 false) in
     ∃ e w',
       V2_app.script V2_doubles.model V2_doubles.Prophet_fit
         V2_doubles.make_future_dataframe V2_doubles.predict V2_doubles.cv_frame
         V2_doubles.cross_validation V2_doubles.performance_metrics
         (V2_app.Interaction (Some V2_doubles.other_store) 2 1 true) s
       = (Raise e,
          V2_app.Session w' (V2_app.forecast_cache s) (V2_app.backtest_cache s)
            (V2_app.session_state s))).
Proof.
  split.
  - destruct (failures_are_not_cached V2_doubles.model V2_doubles.Prophet_fit
                V2_doubles.make_future_dataframe V2_doubles.predict V2_doubles.cv_frame
                V2_doubles.cross_validation V2_doubles.performance_metrics
                (V2_app.fresh 0)
                (V2_app.Interaction (Some V2_doubles.lonely_series) 1 1 false))
      as [Hforecast _].
    eexists _, _. apply Hforecast; [reflexivity|]. vm_compute. reflexivity.
  - intros s.
    destruct (failures_are_not_cached V2_doubles.model V2_doubles.Prophet_fit
                V2_doubles.make_future_dataframe V2_doubles.predict V2_doubles.cv_frame
                V2_doubles.cross_validation V2_doubles.performance_metrics
                s (V2_app.Interaction (Some V2_doubles.other_store) 2 1 true))
      as [_ Hbacktest].
    eexists _, _. eapply (Hbacktest V2_doubles.other_store).
    + vm_compute. reflexivity.
    + reflexivity.
    + vm_compute. reflexivity.
    + vm_compute. reflexivity.
Defined.
